(** * Sloka API: the request handlers of [index.js] and the schema of
    [models/Quotes.js], embedded as Rocq functions.

    The handlers are written in a small state-and-error monad over the
    record store, the clock and the random source; JavaScript numbers,
    strings, [parseInt], [String.prototype.replace] and the [Date]
    arithmetic they call are modelled after ECMAScript. *)

From Stdlib Require Import ZArith NArith List String Ascii Bool Lia.
Import ListNotations.
Open Scope Z_scope.

(** ** JavaScript numbers *)

Module JSNumber.

(** Nearest integer with at most 53 significant bits, ties to even: the
    binary64 rounding of a non-negative integer (the exponent range is
    handled by [of_Z]). *)
Definition round53 (n : Z) : Z :=
  let bits := Z.log2 n + 1 in
  if bits <=? 53 then n
  else
    let s := bits - 53 in
    let q := Z.shiftr n s in
    let r := Z.land n (Z.ones s) in
    let half := Z.shiftl 1 (s - 1) in
    let up := (half <? r) || ((half =? r) && Z.odd q) in
    Z.shiftl (if up then q + 1 else q) s.

Definition roundZ (z : Z) : Z := Z.sgn z * round53 (Z.abs z).

(** The Number values this program computes with: integers (already
    rounded), NaN and the two infinities.  [-0] is identified with [0]:
    both are falsy and compare equal. *)
Inductive number :=
| NaN
| Fin (z : Z)
| Inf (negative : bool).

Definition number_eqb (a b : number) : bool :=
  match a, b with
  | NaN, NaN => true
  | Fin x, Fin y => x =? y
  | Inf s, Inf t => Bool.eqb s t
  | _, _ => false
  end.

(** The Number value of a mathematical integer: round to nearest, and
    overflow to an infinity from 2^1024 on. *)
Definition of_Z (z : Z) : number :=
  let r := roundZ z in
  if 2 ^ 1024 <=? Z.abs r then Inf (z <? 0) else Fin r.

(** ToBoolean on numbers: NaN and zero are falsy. *)
Definition truthy (a : number) : bool :=
  match a with
  | NaN => false
  | Fin z => negb (z =? 0)
  | Inf _ => true
  end.

(** [a || b] *)
Definition or (a b : number) : number := if truthy a then a else b.

(** [a < b]; false as soon as one side is NaN. *)
Definition lt (a b : number) : bool :=
  match a, b with
  | NaN, _ | _, NaN => false
  | Fin x, Fin y => x <? y
  | Fin _, Inf neg => negb neg
  | Inf neg, Fin _ => neg
  | Inf s, Inf t => s && negb t
  end.

Definition gt (a b : number) : bool := lt b a.

(** [Math.max(a, b)] and [Math.min(a, b)] *)
Definition max (a b : number) : number :=
  match a, b with
  | NaN, _ | _, NaN => NaN
  | _, _ => if lt a b then b else a
  end.

Definition min (a b : number) : number :=
  match a, b with
  | NaN, _ | _, NaN => NaN
  | _, _ => if lt b a then b else a
  end.

Definition neg (a : number) : number :=
  match a with
  | NaN => NaN
  | Fin z => Fin (- z)
  | Inf s => Inf (negb s)
  end.

(** [a + b], [a - b], [a * b]: exact on the integers, then rounded. *)
Definition add (a b : number) : number :=
  match a, b with
  | NaN, _ | _, NaN => NaN
  | Fin x, Fin y => of_Z (x + y)
  | Fin _, Inf s | Inf s, Fin _ => Inf s
  | Inf s, Inf t => if Bool.eqb s t then Inf s else NaN
  end.

Definition sub (a b : number) : number := add a (neg b).

Definition mul (a b : number) : number :=
  match a, b with
  | NaN, _ | _, NaN => NaN
  | Fin x, Fin y => of_Z (x * y)
  | Fin x, Inf s | Inf s, Fin x =>
      if x =? 0 then NaN else Inf (xorb s (x <? 0))
  | Inf s, Inf t => Inf (xorb s t)
  end.

(** [Math.ceil(a / b)] for integers.  The quotient of two integers of
    magnitude below 2^53 is never rounded across an integer, so the
    ceiling of the binary64 quotient is the ceiling of the exact one. *)
Definition ceil_div (a b : number) : number :=
  match a, b with
  | NaN, _ | _, NaN => NaN
  | Fin x, Fin y =>
      if y =? 0 then
        (if x =? 0 then NaN else Inf (x <? 0))
      else Fin (- ((- x) / y))
  | Fin _, Inf _ => Fin 0
  | Inf s, Fin y => Inf (xorb s (y <? 0))
  | Inf _, Inf _ => NaN
  end.

(** A binary64 value [mant / 2^expo] in [0, 1): what [Math.random()]
    returns. *)
Record unit_double := { mant : Z; expo : Z }.

Definition unit_double_ok (r : unit_double) : Prop :=
  0 <= expo r /\ 0 <= mant r < 2 ^ 53 /\ mant r < 2 ^ expo r.

(** [Math.floor(r * count)] for a non-negative integer [count]: the
    exact product [mant * count / 2^expo] is rounded to binary64, then
    floored. *)
Definition floor_mul (r : unit_double) (count : Z) : Z :=
  round53 (mant r * count) / 2 ^ expo r.

End JSNumber.

(** ** Time values and the calendar (ECMAScript, Date objects) *)

Module Calendar.

Definition msPerDay : Z := 86400000.

Definition Day (t : Z) : Z := t / msPerDay.
Definition TimeWithinDay (t : Z) : Z := t mod msPerDay.

Definition DaysInYear (y : Z) : Z :=
  if negb (y mod 4 =? 0) then 365
  else if negb (y mod 100 =? 0) then 366
  else if negb (y mod 400 =? 0) then 365
  else 366.

Definition DayFromYear (y : Z) : Z :=
  365 * (y - 1970) + (y - 1969) / 4 - (y - 1901) / 100 + (y - 1601) / 400.

Definition TimeFromYear (y : Z) : Z := msPerDay * DayFromYear y.

(** The largest [y] with [TimeFromYear y <= t]: one estimate from the
    mean year length, corrected by at most one year either way. *)
Definition YearFromDay (d : Z) : Z :=
  let y0 := 1970 + (d * 400) / 146097 in
  if d <? DayFromYear y0 then y0 - 1
  else if DayFromYear (y0 + 1) <=? d then y0 + 1
  else y0.

Definition YearFromTime (t : Z) : Z := YearFromDay (Day t).

Definition DayWithinYear (t : Z) : Z := Day t - DayFromYear (YearFromTime t).

(** Days of the year before month [m] (0 = January), for a year of
    [len] days. *)
Definition DaysBeforeMonth (len m : Z) : Z :=
  let leap := len - 365 in
  match m with
  | 0 => 0
  | 1 => 31
  | 2 => 59 + leap
  | 3 => 90 + leap
  | 4 => 120 + leap
  | 5 => 151 + leap
  | 6 => 181 + leap
  | 7 => 212 + leap
  | 8 => 243 + leap
  | 9 => 273 + leap
  | 10 => 304 + leap
  | _ => 334 + leap
  end.

(** [MakeDay(year, month, date)] *)
Definition MakeDay (year month date : Z) : Z :=
  let ym := year + month / 12 in
  let mn := month mod 12 in
  DayFromYear ym + DaysBeforeMonth (DaysInYear ym) mn + date - 1.

(** [MakeDate(day, time)] *)
Definition MakeDate (day time : Z) : Z := day * msPerDay + time.

(** The host's time zone: [LocalTZA(t, isUTC)], the offset of local
    time from UTC in milliseconds, asked for a UTC instant or for a
    local time. *)
Record timezone := {
  offset_at_utc : Z -> Z;
  offset_at_local : Z -> Z
}.

Definition LocalTime (tz : timezone) (t : Z) : Z := t + offset_at_utc tz t.
Definition UTC (tz : timezone) (t : Z) : Z := t - offset_at_local tz t.

(** [d.getFullYear()] for the Date with time value [t]. *)
Definition getFullYear (tz : timezone) (t : Z) : Z :=
  YearFromTime (LocalTime tz t).

(** [new Date(year, month, date)]: local midnight of that day; a year
    from 0 to 99 means 1900 + year. *)
Definition Date_ymd (tz : timezone) (year month date : Z) : Z :=
  let yr := if (0 <=? year) && (year <=? 99) then 1900 + year else year in
  UTC tz (MakeDate (MakeDay yr month date) 0).

(** The 1-based ordinal of the local calendar day of instant [t] in
    its year: 1 on the first of January. *)
Definition ordinal_day (tz : timezone) (t : Z) : Z :=
  DayWithinYear (LocalTime tz t) + 1.

(** The local calendar day (epoch day number) of instant [t]. *)
Definition local_day (tz : timezone) (t : Z) : Z := Day (LocalTime tz t).

Definition utc_zone : timezone :=
  {| offset_at_utc := fun _ => 0; offset_at_local := fun _ => 0 |}.

Definition fixed_zone (off : Z) : timezone :=
  {| offset_at_utc := fun _ => off; offset_at_local := fun _ => off |}.

End Calendar.

(** ** JavaScript strings *)

Module JSString.

Local Open Scope N_scope.

(** A string is its sequence of UTF-16 code units. *)
Definition jsstring := list N.

Definition str (s : string) : jsstring :=
  map N_of_ascii (list_ascii_of_string s).

Fixpoint eqb (a b : jsstring) : bool :=
  match a, b with
  | [], [] => true
  | x :: a', y :: b' => (x =? y) && eqb a' b'
  | _, _ => false
  end.

Definition mem (c : N) (l : list N) : bool := existsb (N.eqb c) l.

(** White space and line terminators, as [parseInt] skips them. *)
Definition is_white (c : N) : bool :=
  mem c [9; 10; 11; 12; 13; 32; 160; 5760; 8232; 8233; 8239; 8287; 12288; 65279]
  || ((8192 <=? c) && (c <=? 8202)).

Fixpoint trim_start (s : jsstring) : jsstring :=
  match s with
  | c :: r => if is_white c then trim_start r else s
  | [] => []
  end.

(** The value of [c] as a digit in radix [R], if it is one. *)
Definition digit_value (R : N) (c : N) : option N :=
  let v :=
    if (48 <=? c) && (c <=? 57) then Some (c - 48)
    else if (97 <=? c) && (c <=? 122) then Some (c - 87)
    else if (65 <=? c) && (c <=? 90) then Some (c - 55)
    else None in
  match v with
  | Some d => if d <? R then Some d else None
  | None => None
  end.

(** The longest prefix of radix-[R] digits, read as an integer;
    [None] when the prefix is empty. *)
Fixpoint digits_from (R : N) (acc : option N) (s : jsstring) : option N :=
  match s with
  | [] => acc
  | c :: r =>
      match digit_value R c with
      | Some d =>
          digits_from R (Some (match acc with Some a => a * R + d | None => d end)) r
      | None => acc
      end
  end.

(** [parseInt(s)] with no radix argument. *)
Definition parseInt (input : jsstring) : JSNumber.number :=
  let s := trim_start input in
  let '(negative, s) :=
    match s with
    | c :: r => if c =? 45 then (true, r) else if c =? 43 then (false, r) else (false, s)
    | [] => (false, s)
    end in
  let '(R, s) :=
    match s with
    | c :: d :: r =>
        if (c =? 48) && ((d =? 120) || (d =? 88)) then (16, r) else (10, s)
    | _ => (10, s)
    end in
  match digits_from R None s with
  | None => JSNumber.NaN
  | Some n => JSNumber.of_Z (if negative then - Z.of_N n else Z.of_N n)
  end.

(** *** Regular expression character classes and [replace] *)

(** The members of a character class, from the text between its
    brackets: a backslash makes the next character a member; the class
    of this program has no ranges and no class escapes. *)
Fixpoint class_atoms (body : jsstring) : list N :=
  match body with
  | [] => []
  | c :: r =>
      if c =? 92 then
        match r with
        | d :: r' => d :: class_atoms r'
        | [] => []
        end
      else c :: class_atoms r
  end.

(** GetSubstitution for a match without capture groups: [$$], [$&],
    [$`] and [$']; any other [$] stands for itself. *)
Fixpoint expand (template matched before after : jsstring) : jsstring :=
  match template with
  | [] => []
  | c :: r =>
      if c =? 36 then
        match r with
        | d :: r' =>
            if d =? 36 then 36 :: expand r' matched before after
            else if d =? 38 then matched ++ expand r' matched before after
            else if d =? 96 then before ++ expand r' matched before after
            else if d =? 39 then after ++ expand r' matched before after
            else 36 :: expand r matched before after
        | [] => [36]
        end
      else c :: expand r matched before after
  end.

(** [s.replace(/[class]/g, template)]: every code unit of the class is
    a match of length one; [before] is what precedes the position. *)
Fixpoint replace_from (cls : list N) (template before s : jsstring) : jsstring :=
  match s with
  | [] => []
  | c :: r =>
      if mem c cls
      then expand template [c] before r ++ replace_from cls template (before ++ [c]) r
      else c :: replace_from cls template (before ++ [c]) r
  end.

Definition replace_class_g (cls : list N) (template s : jsstring) : jsstring :=
  replace_from cls template [] s.

End JSString.

(** ** JSON values and plain objects *)

Module Json.

Import JSString.

#[warnings="-register-all"]
Inductive value :=
| VUndefined
| VNull
| VBool (b : bool)
| VNum (n : JSNumber.number)
| VStr (s : jsstring)
| VArr (items : list value)
| VObj (fields : list (string * value))
(** a record read from the store: a hydrated model instance, whose
    serialization runs the schema's [toJSON] options, or a lean plain
    object *)
| VDoc (hydrated : bool) (fields : list (string * value)).

Definition object := list (string * value).

Fixpoint obj_get (k : string) (o : object) : option value :=
  match o with
  | [] => None
  | (k', v) :: r => if String.eqb k k' then Some v else obj_get k r
  end.

Definition obj_has (k : string) (o : object) : bool :=
  match obj_get k o with Some _ => true | None => false end.

(** [o[k] = v]: an own key keeps its place, a new key goes last. *)
Fixpoint obj_set (k : string) (v : value) (o : object) : object :=
  match o with
  | [] => [(k, v)]
  | (k', v') :: r =>
      if String.eqb k k' then (k, v) :: r else (k', v') :: obj_set k v r
  end.

(** [delete o[k]] *)
Definition obj_delete (k : string) (o : object) : object :=
  filter (fun kv => negb (String.eqb k (fst kv))) o.

(** [{...a, ...b}] *)
Definition obj_spread (a b : object) : object :=
  fold_left (fun acc kv => obj_set (fst kv) (snd kv) acc) b a.

End Json.

(** ** The record store: mongoose queries over the Quote collection *)

Module Mongo.

Import JSString Json.

(** What a query can throw: no connection, an identifier that does not
    cast, or a skip or limit the store refuses. *)
Inductive store_error :=
| Disconnected
| CastError
| BadValue.

(** What the host and the libraries provide: the time zone, the ISO
    rendering of a time value, the ObjectId constructor on strings
    ([None] when it throws), and the store's regular-expression engine
    (its case folding, and its verdict on patterns that are not plain
    literals), the run mode and the message of a thrown error. *)
Record runtime := {
  zone : Calendar.timezone;
  toISOString : Z -> jsstring;
  ObjectId_of : jsstring -> option jsstring;
  fold_case : N -> N;
  regex_engine : string -> jsstring -> jsstring -> bool;
  production : bool;
  error_message : store_error -> jsstring
}.

(** [mongoose.Types.ObjectId.isValid(id)] on a string: whether an
    ObjectId can be built from it. *)
Definition ObjectId_isValid (rt : runtime) (id : jsstring) : bool :=
  match ObjectId_of rt id with Some _ => true | None => false end.

(** *** Patterns *)

(** The characters with a meaning of their own in a pattern, outside a
    character class. *)
Local Open Scope N_scope.

Definition pattern_meta : list N :=
  Eval cbv in str "\^$.[|()?*+{".

Definition is_alnum (c : N) : bool :=
  ((48 <=? c) && (c <=? 57)) || ((97 <=? c) && (c <=? 122))
  || ((65 <=? c) && (c <=? 90)).

(** The text a pattern stands for when it is a plain literal: no
    metacharacter unescaped, and a backslash only before a character
    that is not a letter or digit, which then stands for itself. *)
Fixpoint literal_of (p : jsstring) : option jsstring :=
  match p with
  | [] => Some []
  | c :: r =>
      if c =? 92 then
        match r with
        | d :: r' =>
            if is_alnum d then None else option_map (cons d) (literal_of r')
        | [] => None
        end
      else if mem c pattern_meta then None
      else option_map (cons c) (literal_of r)
  end.

Fixpoint starts_with (eq : N -> N -> bool) (needle hay : jsstring) : bool :=
  match needle, hay with
  | [], _ => true
  | x :: n', y :: h' => eq x y && starts_with eq n' h'
  | _ :: _, [] => false
  end.

(** [needle] occurs in [hay], code units compared with [eq]. *)
Fixpoint occurs_in (eq : N -> N -> bool) (needle hay : jsstring) : bool :=
  starts_with eq needle hay
  || match hay with
     | [] => false
     | _ :: h' => occurs_in eq needle h'
     end.

Definition has_option (o : ascii) (options : string) : bool :=
  existsb (Ascii.eqb o) (list_ascii_of_string options).

Definition unit_eq (rt : runtime) (options : string) (x y : N) : bool :=
  if has_option "i"%char options
  then fold_case rt x =? fold_case rt y
  else x =? y.

(** [{ $regex: pattern, $options: options }] against a string: an
    unanchored search. *)
Definition regex_test (rt : runtime) (options : string) (pattern text : jsstring) : bool :=
  match literal_of pattern with
  | Some l => occurs_in (unit_eq rt options) l text
  | None => regex_engine rt options pattern text
  end.

(** *** Documents, filters and queries *)

Definition document := object.

Record store := {
  connected : bool;
  docs : list document
}.

Inductive conditions :=
| All
| ById (id : jsstring)
| Regex (field : string) (pattern : jsstring) (options : string).

Record query := {
  q_filter : conditions;
  q_single : bool;
  q_skip : option JSNumber.number;
  q_limit : option JSNumber.number;
  q_exclude : list string;
  q_lean : bool
}.

Definition Quote_find (f : conditions) : query :=
  {| q_filter := f; q_single := false; q_skip := None; q_limit := None;
     q_exclude := []; q_lean := false |}.

Definition Quote_findOne : query :=
  {| q_filter := All; q_single := true; q_skip := None; q_limit := None;
     q_exclude := []; q_lean := false |}.

Definition Quote_findById (id : jsstring) : query :=
  {| q_filter := ById id; q_single := true; q_skip := None; q_limit := None;
     q_exclude := []; q_lean := false |}.

Definition skip (n : JSNumber.number) (q : query) : query :=
  {| q_filter := q_filter q; q_single := q_single q; q_skip := Some n;
     q_limit := q_limit q; q_exclude := q_exclude q; q_lean := q_lean q |}.

Definition limit (n : JSNumber.number) (q : query) : query :=
  {| q_filter := q_filter q; q_single := q_single q; q_skip := q_skip q;
     q_limit := Some n; q_exclude := q_exclude q; q_lean := q_lean q |}.

(** [.select('-field')]: leave the field out of the results. *)
Definition select (projection : string) (q : query) : query :=
  match projection with
  | String "-"%char field =>
      {| q_filter := q_filter q; q_single := q_single q; q_skip := q_skip q;
         q_limit := q_limit q; q_exclude := field :: q_exclude q;
         q_lean := q_lean q |}
  | _ => q
  end.

Definition lean (q : query) : query :=
  {| q_filter := q_filter q; q_single := q_single q; q_skip := q_skip q;
     q_limit := q_limit q; q_exclude := q_exclude q; q_lean := true |}.

(** A skip or a limit the store accepts: a non-negative integer of at
    most 63 bits. *)
Definition window_arg (n : option JSNumber.number) : option (option nat) :=
  match n with
  | None => Some None
  | Some (JSNumber.Fin z) =>
      if ((0 <=? z) && (z <? 2 ^ 63))%Z then Some (Some (Z.to_nat z)) else None
  | Some _ => None
  end.

Definition matches (rt : runtime) (f : conditions) (d : document) : option bool :=
  match f with
  | All => Some true
  | ById id =>
      match ObjectId_of rt id with
      | Some oid =>
          Some match obj_get "_id" d with
               | Some (VStr s) => JSString.eqb s oid
               | _ => false
               end
      | None => None
      end
  | Regex field pattern options =>
      Some match obj_get field d with
           | Some (VStr s) => regex_test rt options pattern s
           | _ => false
           end
  end.

Definition filter_ok (rt : runtime) (f : conditions) : bool :=
  match f with
  | ById id => ObjectId_isValid rt id
  | _ => true
  end.

Definition project (exclude : list string) (d : document) : document :=
  fold_right obj_delete d exclude.

(** The records a query yields, in the store's enumeration order. *)
Definition exec (rt : runtime) (db : store) (q : query)
  : store_error + list value :=
  if negb (filter_ok rt (q_filter q)) then inl CastError
  else if negb (connected db) then inl Disconnected
  else
    match window_arg (q_skip q), window_arg (q_limit q) with
    | Some sk, Some lim =>
        let found :=
          filter (fun d => match matches rt (q_filter q) d with
                           | Some b => b
                           | None => false
                           end) (docs db) in
        let found := match sk with Some n => skipn n found | None => found end in
        let found := match lim with Some n => firstn n found | None => found end in
        let found := if q_single q then firstn 1 found else found in
        inr (map (fun d => VDoc (negb (q_lean q)) (project (q_exclude q) d)) found)
    | _, _ => inl BadValue
    end.

(** [Quote.countDocuments()] *)
Definition countDocuments (db : store) : store_error + Z :=
  if connected db then inr (Z.of_nat (List.length (docs db))) else inl Disconnected.

(** *** The schema's [toJSON] transform ([models/Quotes.js]) *)

Definition toJSON_transform (ret : object) : object :=
  let ret :=
    obj_set "id"
      (match obj_get "_id" ret with Some v => v | None => VUndefined end) ret in
  let ret := obj_delete "_id" ret in
  let ret := obj_delete "__v" ret in
  ret.

(** What [JSON.stringify] makes of a response body: a hydrated record
    goes through the schema's transform, a lean one is taken as it is,
    properties holding [undefined] are left out, and a number that is
    not finite becomes [null]. *)
Fixpoint to_json (v : value) : value :=
  match v with
  | VArr items => VArr (map to_json items)
  | VObj fields =>
      VObj ((fix go (fs : list (string * value)) : list (string * value) :=
               match fs with
               | [] => []
               | (k, x) :: r =>
                   match x with
                   | VUndefined => go r
                   | _ => (k, to_json x) :: go r
                   end
               end) fields)
  | VNum (JSNumber.Fin _) => v
  | VNum _ => VNull
  | VDoc hydrated fields =>
      VObj (filter (fun kv => match snd kv with VUndefined => false | _ => true end)
              (if hydrated then toJSON_transform fields else fields))
  | _ => v
  end.

End Mongo.

(** ** The request handlers ([index.js]) *)

Module Express.

Import JSString Json Mongo.
Local Open Scope string_scope.
Local Open Scope Z_scope.
Local Open Scope list_scope.

(** A value of [req.query]: absent, a string, or what the query-string
    parser builds from repeated and bracketed keys. *)
#[warnings="-register-all"]
Inductive qvalue :=
| QUndefined
| QString (s : jsstring)
| QArray (items : list qvalue)
| QObject (fields : list (jsstring * qvalue)).

(** ToString, as [parseInt] applies it to its argument. *)
Fixpoint ToString (v : qvalue) : jsstring :=
  match v with
  | QUndefined => str "undefined"
  | QString s => s
  | QArray items =>
      (fix join (l : list qvalue) : jsstring :=
         match l with
         | [] => []
         | x :: r =>
             let sx := match x with QUndefined => [] | _ => ToString x end in
             match r with
             | [] => sx
             | _ :: _ => sx ++ 44%N :: join r
             end
         end) items
  | QObject _ => str "[object Object]"
  end.

(** ToBoolean: [undefined] and the empty string are falsy. *)
Definition q_truthy (v : qvalue) : bool :=
  match v with
  | QUndefined => false
  | QString [] => false
  | _ => true
  end.

Definition typeof_is_string (v : qvalue) : bool :=
  match v with
  | QString _ => true
  | _ => false
  end.

Record request := {
  params : list (string * jsstring);
  query : list (string * qvalue)
}.

Fixpoint lookup {A} (k : string) (l : list (string * A)) : option A :=
  match l with
  | [] => None
  | (k', v) :: r => if String.eqb k k' then Some v else lookup k r
  end.

(** [req.query.k] *)
Definition req_query (req : request) (k : string) : qvalue :=
  match lookup k (query req) with Some v => v | None => QUndefined end.

(** [req.params.k] *)
Definition req_param (req : request) (k : string) : option jsstring :=
  lookup k (params req).

Record response := {
  status : Z;
  body : value
}.

(** *** Effects: store calls, the clock and the random source *)

Inductive event :=
| CountDocuments
| Exec (q : Mongo.query)
| MathRandom
| NewDate.

Record world := {
  rt : runtime;
  db : store;
  random : JSNumber.unit_double;
  clock : nat -> Z
}.

Record state := {
  log : list event;
  ticks : nat
}.

Inductive outcome (A : Type) :=
| Ok (a : A)
| Throw (e : store_error).
Arguments Ok {A} a.
Arguments Throw {A} e.

Definition M (A : Type) : Type := world -> state -> outcome A * state.

Definition ret {A} (a : A) : M A := fun _ s => (Ok a, s).

Definition bind {A B} (m : M A) (k : A -> M B) : M B :=
  fun w s =>
    match m w s with
    | (Ok a, s') => k a w s'
    | (Throw e, s') => (Throw e, s')
    end.

Notation "x <- m ;; k" := (bind m (fun x => k))
  (at level 100, m at next level, right associativity).

Definition emit (e : event) (s : state) : state :=
  {| log := log s ++ [e]; ticks := ticks s |}.

Definition lift {A} (r : store_error + A) : outcome A :=
  match r with
  | inr a => Ok a
  | inl e => Throw e
  end.

(** [await Quote.countDocuments()] *)
Definition await_count : M Z :=
  fun w s => (lift (countDocuments (db w)), emit CountDocuments s).

(** [await q] for a query returning an array *)
Definition await_many (q : Mongo.query) : M (list value) :=
  fun w s => (lift (exec (rt w) (db w) q), emit (Exec q) s).

(** [await q] for a [findOne]/[findById] query: the record or [null] *)
Definition await_one (q : Mongo.query) : M value :=
  l <- await_many q ;;
  ret (match l with d :: _ => d | [] => VNull end).

(** [await Promise.all([a, b])]: both are started, in order. *)
Definition Promise_all2 {A B} (a : M A) (b : M B) : M (A * B) :=
  fun w s =>
    let '(ra, s1) := a w s in
    let '(rb, s2) := b w s1 in
    match ra, rb with
    | Ok x, Ok y => (Ok (x, y), s2)
    | Throw e, _ => (Throw e, s2)
    | _, Throw e => (Throw e, s2)
    end.

(** [Math.random()] *)
Definition Math_random : M JSNumber.unit_double :=
  fun w s => (Ok (random w), emit MathRandom s).

(** [new Date()]: the time value of the clock at this reading *)
Definition new_Date : M Z :=
  fun w s =>
    (Ok (clock w (ticks s)),
     {| log := log s ++ [NewDate]; ticks := S (ticks s) |}).

Definition the_runtime : M runtime := fun w s => (Ok (rt w), s).

(** [res.status(code).json(obj)] *)
Definition res_json (code : Z) (obj : object) : response :=
  {| status := code; body := to_json (VObj obj) |}.

(** [sendResponse(res, statusCode, data)] *)
Definition sendResponse (statusCode : Z) (data : object) : M response :=
  r <- the_runtime ;;
  t <- new_Date ;;
  ret (res_json statusCode
         (obj_spread [("success", VBool true);
                      ("timestamp", VStr (toISOString r t))] data)).

Definition error_body (msg : string) : object :=
  [("success", VBool false); ("error", VStr (str msg))].

(** *** GET /api/quote/random *)
Definition get_random (req : request) : M response :=
  count <- await_count ;;
  if count =? 0 then
    ret (res_json 404 (error_body "No quotes found in database"))
  else
    r <- Math_random ;;
    let random := JSNumber.floor_mul r count in
    quote <- await_one
               (lean (select "-__v" (skip (JSNumber.Fin random) Quote_findOne))) ;;
    sendResponse 200 [("data", quote)].

(** *** GET /api/quote/daily *)
Definition day_of_year (tz : Calendar.timezone) (now : Z) : Z :=
  let start := Calendar.Date_ymd tz (Calendar.getFullYear tz now) 0 0 in
  let diff := now - start in
  let oneDay := 1000 * 60 * 60 * 24 in
  diff / oneDay.

Definition get_daily (req : request) : M response :=
  count <- await_count ;;
  if count =? 0 then
    ret (res_json 404 (error_body "No quotes found in database"))
  else
    r <- the_runtime ;;
    now <- new_Date ;;
    let dayOfYear := day_of_year (zone r) now in
    let index := Z.rem dayOfYear count in
    quote <- await_one
               (lean (select "-__v" (skip (JSNumber.Fin index) Quote_findOne))) ;;
    sendResponse 200 [("data", quote); ("dayOfYear", VNum (JSNumber.Fin dayOfYear))].

(** *** GET /api/quote/:id *)
Definition get_by_id (req : request) : M response :=
  r <- the_runtime ;;
  match req_param req "id" with
  | None => ret (res_json 400 (error_body "Invalid quote ID format"))
  | Some id =>
      if negb (ObjectId_isValid r id) then
        ret (res_json 400 (error_body "Invalid quote ID format"))
      else
        quote <- await_one (lean (select "-__v" (Quote_findById id))) ;;
        match quote with
        | VNull => ret (res_json 404 (error_body "Quote not found"))
        | _ => sendResponse 200 [("data", quote)]
        end
  end.

(** *** GET /api/quotes/search *)

(** The class of [/[.*+?^${}()|[\]\\]/g], from the text between its
    brackets. *)
Definition special_characters : list N :=
  Eval cbv in class_atoms (str ".*+?^${}()|[\]\\").

Definition sanitizedSource (source : jsstring) : jsstring :=
  replace_class_g special_characters (str "\$&") source.

Definition get_search (req : request) : M response :=
  let source := req_query req "source" in
  if negb (q_truthy source) || negb (typeof_is_string source) then
    ret (res_json 400 (error_body "Source query parameter is required"))
  else
    let sanitizedSource := sanitizedSource (ToString source) in
    quotes <- await_many
                (limit (JSNumber.Fin 50)
                   (lean (select "-__v"
                            (Quote_find (Regex "source" sanitizedSource "i"))))) ;;
    sendResponse 200
      [("count", VNum (JSNumber.Fin (Z.of_nat (List.length quotes))));
       ("data", VArr quotes)].

(** *** GET /api/quotes *)
Record page_window := {
  w_page : JSNumber.number;
  w_limit : JSNumber.number;
  w_skip : JSNumber.number
}.

Definition page_bounds (req : request) : page_window :=
  let page :=
    JSNumber.max (JSNumber.Fin 1)
      (JSNumber.or (parseInt (ToString (req_query req "page"))) (JSNumber.Fin 1)) in
  let limit :=
    JSNumber.min (JSNumber.Fin 50)
      (JSNumber.max (JSNumber.Fin 1)
         (JSNumber.or (parseInt (ToString (req_query req "limit"))) (JSNumber.Fin 10))) in
  let skip := JSNumber.mul (JSNumber.sub page (JSNumber.Fin 1)) limit in
  {| w_page := page; w_limit := limit; w_skip := skip |}.

Definition pagination (page limit : JSNumber.number) (total : Z) : object :=
  [("currentPage", VNum page);
   ("totalPages", VNum (JSNumber.ceil_div (JSNumber.Fin total) limit));
   ("totalItems", VNum (JSNumber.Fin total));
   ("itemsPerPage", VNum limit);
   ("hasNextPage", VBool (JSNumber.lt (JSNumber.mul page limit) (JSNumber.Fin total)));
   ("hasPrevPage", VBool (JSNumber.gt page (JSNumber.Fin 1)))].

Definition get_quotes (req : request) : M response :=
  let b := page_bounds req in
  qt <- Promise_all2
          (await_many
             (lean (Mongo.limit (w_limit b)
                      (Mongo.skip (w_skip b) (select "-__v" (Quote_find All))))))
          await_count ;;
  let '(quotes, total) := qt in
  sendResponse 200
    [("data", VArr quotes);
     ("pagination", VObj (pagination (w_page b) (w_limit b) total))].

(** *** The global error handler, for what a handler throws *)
Definition error_handler (r : runtime) (e : store_error) : response :=
  match e with
  | CastError => res_json 400 (error_body "Invalid ID format")
  | _ =>
      res_json 500
        [("success", VBool false);
         ("error", VStr (if production r then str "Internal server error"
                         else error_message r e))]
  end.

(** One request through [asyncHandler(handler)]: the response sent and
    the effects performed, in order. *)
Definition serve (h : request -> M response) (w : world) (req : request)
  : response * list event :=
  match h req w {| log := []; ticks := 0 |} with
  | (Ok r, s) => (r, log s)
  | (Throw e, s) => (error_handler (rt w) e, log s)
  end.

End Express.

(** ** Sample hosts, stores and requests *)

Module Samples.

Import JSString Json Mongo Express.
Local Open Scope string_scope.
Local Open Scope Z_scope.
Local Open Scope list_scope.

Definition is_hex (c : N) : bool :=
  (((48 <=? c) && (c <=? 57)) || ((97 <=? c) && (c <=? 102))
   || ((65 <=? c) && (c <=? 70)))%N.

Definition lower (c : N) : N :=
  (if (65 <=? c) && (c <=? 90) then c + 32 else c)%N.

(** An ObjectId constructor that takes 24 hexadecimal digits. *)
Definition hex24 (s : jsstring) : option jsstring :=
  if Nat.eqb (List.length s) 24 && forallb is_hex s
  then Some (map lower s) else None.

(** Central European time in 2024: UTC+1, and UTC+2 from 31 March
    01:00 UTC to 27 October 01:00 UTC. *)
Definition central_european_2024 : Calendar.timezone :=
  {| Calendar.offset_at_utc := fun t =>
       if (1711846800000 <=? t) && (t <? 1729990800000) then 7200000 else 3600000;
     Calendar.offset_at_local := fun t =>
       if (1711854000000 <=? t) && (t <? 1729998000000) then 7200000 else 3600000 |}.

Definition host (tz : Calendar.timezone) : runtime :=
  {| zone := tz;
     toISOString := fun t => str "t=" ++ [N.of_nat (Z.to_nat (t mod 10)) + 48]%N;
     ObjectId_of := hex24;
     fold_case := lower;
     regex_engine := fun _ _ _ => false;
     production := false;
     error_message := fun _ => str "store error" |}.

Definition quote (id sloka source : string) : document :=
  [("_id", VStr (str id));
   ("sloka", VStr (str sloka));
   ("source", VStr (str source));
   ("createdAt", VStr (str "2024-01-01T00:00:00.000Z"));
   ("updatedAt", VStr (str "2024-01-01T00:00:00.000Z"));
   ("__v", VNum (JSNumber.Fin 0))].

Definition id_a : string := "65a000000000000000000001".
Definition id_b : string := "65a000000000000000000002".
Definition id_c : string := "65a000000000000000000003".
Definition id_missing : string := "65a0000000000000000000ff".

Definition three_quotes : store :=
  {| connected := true;
     docs := [quote id_a "A" "Bhagavad Gita";
              quote id_b "B" "Gita.* commentary";
              quote id_c "C" "Rig Veda"] |}.

Definition empty_store : store := {| connected := true; docs := [] |}.

(** 2024-06-30T22:30:00Z, half past midnight on 1 July in Central
    European summer time, and noon of that 1 July. *)
Definition july_first_0030 : Z := 1719786600000.
Definition july_first_noon : Z := 1719828000000.

Definition half : JSNumber.unit_double :=
  {| JSNumber.mant := 1; JSNumber.expo := 1 |}.

(** The largest double below one. *)
Definition almost_one : JSNumber.unit_double :=
  {| JSNumber.mant := 2 ^ 53 - 1; JSNumber.expo := 53 |}.

Definition world_of (tz : Calendar.timezone) (s : store)
  (r : JSNumber.unit_double) (now : Z) : world :=
  {| rt := host tz; db := s; random := r; clock := fun _ => now |}.

Definition sample_world : world :=
  world_of Calendar.utc_zone three_quotes half july_first_noon.

Definition no_request : request := {| params := []; query := [] |}.

Definition with_id (id : string) : request :=
  {| params := [("id", str id)]; query := [] |}.

Definition with_source (v : qvalue) : request :=
  {| params := []; query := [("source", v)] |}.

Definition with_page_limit (p l : string) : request :=
  {| params := []; query := [("page", QString (str p)); ("limit", QString (str l))] |}.

End Samples.

(** ** The notions the properties are stated with *)

Module Spec.

Import JSString Json Mongo Express.
Local Open Scope string_scope.
Local Open Scope Z_scope.
Local Open Scope list_scope.

(** The store answers, and its record count is a safe integer. *)
Definition store_ok (s : store) : Prop :=
  connected s = true /\ Z.of_nat (List.length (docs s)) < 2 ^ 53.

Definition count_of (s : store) : Z := Z.of_nat (List.length (docs s)).

(** The characters to be escaped: . * + ? ^ $ { } ( ) | [ ] \ *)
Definition metacharacters : list N :=
  Eval cbv in str ".*+?^${}()|[]\".

Definition backslash : N := 92%N.

(** Every metacharacter preceded by a backslash, the rest unchanged. *)
Definition escaped (s : jsstring) : jsstring :=
  flat_map (fun c => if mem c metacharacters then [backslash; c] else [c]) s.

(** [text] contains [needle], letter case aside. *)
Definition contains_ci (r : runtime) (needle text : jsstring) : bool :=
  occurs_in (fun x y => (fold_case r x =? fold_case r y)%N) needle text.

Definition clamp (n lo hi : Z) : Z := Z.min hi (Z.max lo n).

(** The ceiling of [a / b]. *)
Definition ceiling (a b : Z) : Z := - ((- a) / b).

Definition body_field (r : response) (k : string) : option value :=
  match body r with
  | VObj o => obj_get k o
  | _ => None
  end.

Definition pagination_field (r : response) (k : string) : option value :=
  match body_field r "pagination" with
  | Some (VObj o) => obj_get k o
  | _ => None
  end.

(** A record as a lean query with [select('-__v')] returns it, once
    serialized. *)
Definition lean_record (d : document) : value :=
  to_json (VDoc false (obj_delete "__v" d)).

(** The records of a response: the elements of its [data] array, or
    its single [data] record. *)
Definition records_of (r : response) : list value :=
  match body_field r "data" with
  | Some (VArr l) => l
  | Some v => [v]
  | None => []
  end.

(** The query of GET /api/quotes/search for the text [s]. *)
Definition search_query (s : jsstring) : Mongo.query :=
  Mongo.limit (JSNumber.Fin 50)
    (lean (select "-__v" (Quote_find (Regex "source" (sanitizedSource s) "i")))).

(** The first record whose identifier is the ObjectId of [id]. *)
Definition record_with_id (r : runtime) (s : store) (id : jsstring) : option document :=
  find (fun d => match matches r (ById id) d with Some b => b | None => false end)
       (docs s).

(** The records whose [source] holds [text], letter case aside. *)
Definition records_by_source (r : runtime) (s : store) (text : jsstring) : list document :=
  filter (fun d => match obj_get "source" d with
                   | Some (VStr src) => contains_ci r text src
                   | _ => false
                   end) (docs s).

(** The window handed to the store by GET /api/quotes. *)
Definition page_query (b : page_window) : Mongo.query :=
  lean (Mongo.limit (w_limit b) (Mongo.skip (w_skip b) (select "-__v" (Quote_find All)))).

Definition error_response (code : Z) (msg : string) : response :=
  {| status := code;
     body := VObj [("success", VBool false); ("error", VStr (str msg))] |}.

Definition has_key (k : string) (v : value) : bool :=
  match v with
  | VObj o => obj_has k o
  | _ => false
  end.

(** [max(lo, a)] and [min(hi, a)] on the integers with infinities. *)
Definition at_least (lo : Z) (a : JSNumber.number) : JSNumber.number :=
  match a with
  | JSNumber.Fin n => JSNumber.Fin (Z.max lo n)
  | JSNumber.Inf true => JSNumber.Fin lo
  | _ => a
  end.

Definition at_most (hi : Z) (a : JSNumber.number) : JSNumber.number :=
  match a with
  | JSNumber.Fin n => JSNumber.Fin (Z.min hi n)
  | JSNumber.Inf false => JSNumber.Fin hi
  | _ => a
  end.

(** A record under the raw store key [_id], and one under the public
    key [id]; neither carries [__v]. *)
Definition raw_shape (v : value) : bool :=
  has_key "_id" v && negb (has_key "id" v) && negb (has_key "__v" v).

Definition public_shape (v : value) : bool :=
  has_key "id" v && negb (has_key "_id" v) && negb (has_key "__v" v).

(** The default that stands in for a query value [parseInt] reads as
    NaN or zero. *)
Definition or_default (p : JSNumber.number) (d : Z) : JSNumber.number :=
  match p with
  | JSNumber.NaN => JSNumber.Fin d
  | JSNumber.Fin n => JSNumber.Fin (if n =? 0 then d else n)
  | JSNumber.Inf s => JSNumber.Inf s
  end.

End Spec.

(** ** Requests and slices for the paginated listing *)

Module Listing.

Import JSString Json Mongo Express Spec.
Local Open Scope string_scope.
Local Open Scope Z_scope.
Local Open Scope list_scope.

Definition is_digit (c : N) : Prop := (48 <= c <= 57)%N.

(** The decimal numeral of [n], most significant digit first. *)
Fixpoint digits_fuel (fuel : nat) (n : N) (acc : jsstring) : jsstring :=
  match fuel with
  | O => acc
  | S f =>
      let acc' := (48 + n mod 10)%N :: acc in
      if (n / 10 =? 0)%N then acc' else digits_fuel f (n / 10)%N acc'
  end.

Definition decimal (n : Z) : jsstring :=
  let m := Z.to_N n in
  digits_fuel (S (N.to_nat (N.log2 m))) m [].

Definition is_decimal_digit (c : N) : bool := ((48 <=? c) && (c <=? 57))%N.

Definition is_hex_digit (c : N) : bool :=
  (is_decimal_digit c || ((97 <=? c) && (c <=? 102)) || ((65 <=? c) && (c <=? 70)))%N.

(** The value starts with an integer: after white space and an
    optional sign comes a decimal digit, or [0x] or [0X] and a
    hexadecimal digit. *)
Definition leading_integer (s : jsstring) : bool :=
  let s := trim_start s in
  let s :=
    match s with
    | c :: r => if ((c =? 45) || (c =? 43))%N then r else s
    | [] => s
    end in
  match s with
  | c :: d :: r =>
      if ((c =? 48) && ((d =? 120) || (d =? 88)))%N
      then match r with h :: _ => is_hex_digit h | [] => false end
      else is_decimal_digit c
  | [c] => is_decimal_digit c
  | [] => false
  end.

(** What may follow a numeral without being read with it: nothing, or
    a character that is no decimal digit and neither [x] nor [X]. *)
Definition stops (tail : jsstring) : bool :=
  match tail with
  | [] => true
  | c :: _ => negb (is_decimal_digit c) && negb ((c =? 120) || (c =? 88))%N
  end.

(** The value is the text of an integer: an optional sign and decimal
    digits, at least one, and nothing else. *)
Definition integer_text (s : jsstring) : bool :=
  let digits :=
    match s with
    | c :: r => if ((c =? 45) || (c =? 43))%N then r else s
    | [] => s
    end in
  match digits with
  | [] => false
  | _ :: _ => forallb is_decimal_digit digits
  end.

(** GET /api/quotes?page=p&limit=l, both written in decimal. *)
Definition quotes_request (p l : Z) : request :=
  {| params := [];
     query := [("page", QString (decimal p)); ("limit", QString (decimal l))] |}.

(** GET /api/quotes?page=-a&limit=-b *)
Definition minus_request (a b : Z) : request :=
  {| params := [];
     query := [("page", QString (45%N :: decimal a));
               ("limit", QString (45%N :: decimal b))] |}.

(** The records of page [p] when pages hold [l] records. *)
Definition page_slice (ds : list document) (p l : Z) : list document :=
  firstn (Z.to_nat l) (skipn (Z.to_nat ((p - 1) * l)) ds).

(** The whole answer of GET /api/quotes for page [p] of [l] records. *)
Definition quotes_answer (w : world) (p l : Z) : response :=
  {| status := 200;
     body :=
       VObj [("success", VBool true);
             ("timestamp", VStr (toISOString (rt w) (clock w 0)));
             ("data", VArr (map lean_record (page_slice (docs (db w)) p l)));
             ("pagination",
              VObj [("currentPage", VNum (JSNumber.Fin p));
                    ("totalPages", VNum (JSNumber.Fin (ceiling (count_of (db w)) l)));
                    ("totalItems", VNum (JSNumber.Fin (count_of (db w))));
                    ("itemsPerPage", VNum (JSNumber.Fin l));
                    ("hasNextPage", VBool (p * l <? count_of (db w)));
                    ("hasPrevPage", VBool (1 <? p))])] |}.

End Listing.

(** ** The response envelope *)

Module Envelope.

Import JSString Json Mongo Express Spec.
Local Open Scope string_scope.
Local Open Scope Z_scope.
Local Open Scope list_scope.

(** [success] is true with a [timestamp] on a 200, and false with an
    [error] message on anything else. *)
Definition envelope_ok (r : response) : bool :=
  match body_field r "success" with
  | Some (VBool true) =>
      (status r =? 200)
      && match body_field r "timestamp" with Some (VStr _) => true | _ => false end
  | Some (VBool false) =>
      negb (status r =? 200)
      && match body_field r "error" with Some (VStr _) => true | _ => false end
  | _ => false
  end.

(** The answer to a request whose store call failed for want of a
    connection. *)
Definition store_down (r : runtime) : response :=
  {| status := 500;
     body := VObj [("success", VBool false);
                   ("error", VStr (if production r then str "Internal server error"
                                   else error_message r Disconnected))] |}.

(** The five read endpoints. *)
Definition read_endpoints : list (request -> M response) :=
  [get_random; get_daily; get_by_id; get_search; get_quotes].

End Envelope.

(** ** The random source, chosen *)

Module Draw.

Import JSString Json Mongo Express Spec.
Local Open Scope Z_scope.

(** The world [w] with [r] as the next value of [Math.random()]. *)
Definition with_random (w : world) (r : JSNumber.unit_double) : world :=
  {| rt := rt w; db := db w; random := r; clock := clock w |}.

(** A double in [0, 1) whose product with [count] falls in
    [[i, i + 1)]: the least multiple of 2^-26 that is at least
    [i / count]. *)
Definition draw_for (i count : Z) : JSNumber.unit_double :=
  {| JSNumber.mant := ceiling (i * 2 ^ 26) count; JSNumber.expo := 26 |}.

End Draw.

(** ** Configuration ([index.js]) *)

Module Server.

Import JSString.
Local Open Scope string_scope.
Local Open Scope Z_scope.
Local Open Scope list_scope.

(** A variable of [process.env]: a string, or undefined.  Only a
    non-empty string is truthy. *)
Definition env_truthy (v : option jsstring) : bool :=
  match v with
  | Some (_ :: _) => true
  | _ => false
  end.

(** [s.split(sep)] for a separator of one code unit. *)
Fixpoint split (sep : N) (s : jsstring) : list jsstring :=
  match s with
  | [] => [[]]
  | c :: r =>
      if (c =? sep)%N then [] :: split sep r
      else match split sep r with
           | p :: ps => (c :: p) :: ps
           | [] => [[c]]
           end
  end.

(** [l.join(sep)] *)
Fixpoint join (sep : N) (l : list jsstring) : jsstring :=
  match l with
  | [] => []
  | p :: ps =>
      match ps with
      | [] => p
      | _ :: _ => p ++ sep :: join sep ps
      end
  end.

Definition comma : N := 44%N.

(** [corsOptions.origin] *)
Inductive origin :=
| AnyOrigin
| Origins (allowed : list jsstring).

Definition cors_origin (ALLOWED_ORIGINS : option jsstring) : origin :=
  if env_truthy ALLOWED_ORIGINS then
    match ALLOWED_ORIGINS with
    | Some s => Origins (split comma s)
    | None => AnyOrigin
    end
  else AnyOrigin.

End Server.

(** ** The seeding script ([scripts/seed.js]) *)

Module Seed.

Import JSString Json Mongo.
Local Open Scope string_scope.
Local Open Scope Z_scope.
Local Open Scope list_scope.

(** What the script meets: how each call settles ([false] or [None]
    when it throws), the file, the operator's answer and the host's
    [toLowerCase]. *)
Record conditions := {
  connect_ok : bool;
  file_exists : bool;
  file_json : option (list document);
  existing : option Z;
  answer : jsstring;
  toLowerCase : jsstring -> jsstring;
  delete_ok : bool;
  inserted : option nat;
  indexes_ok : bool;
  close_ok : bool
}.

Inductive seed_event :=
| MongooseConnect
| ReadQuotes
| CountDocuments
| Question
| DeleteMany
| InsertMany (data : list document)
| CreateIndexes
| ConnectionClose
| ProcessExit (code : Z).

(** [catch (error) { ...; process.exit(1) }]: the process ends there. *)
Definition caught : list seed_event := [ProcessExit 1].

(** [finally { await mongoose.connection.close(); ...; process.exit(0) }];
    a rejection of [close] is unhandled and ends the process with
    code 1. *)
Definition finally (c : conditions) : list seed_event :=
  if close_ok c then [ConnectionClose; ProcessExit 0]
  else [ConnectionClose; ProcessExit 1].

(** From [insertMany] on. *)
Definition insert_and_index (c : conditions) (data : list document) : list seed_event :=
  InsertMany data ::
  match inserted c with
  | None => caught
  | Some _ =>
      CreateIndexes :: (if indexes_ok c then finally c else caught)
  end.

(** [seedDatabase()], as the sequence of its calls. *)
Definition seedDatabase (c : conditions) : list seed_event :=
  MongooseConnect ::
  if negb (connect_ok c) then caught
  else if negb (file_exists c) then caught
  else
    ReadQuotes ::
    match file_json c with
    | None => caught
    | Some quotesData =>
        CountDocuments ::
        match existing c with
        | None => caught
        | Some existingCount =>
            if 0 <? existingCount then
              Question ::
              if negb (JSString.eqb (toLowerCase c (answer c)) (str "y"))
              then [ProcessExit 0]
              else
                DeleteMany ::
                if delete_ok c then insert_and_index c quotesData else caught
            else insert_and_index c quotesData
        end
    end.

(** The operator is asked, and does not answer y. *)
Definition declined (c : conditions) : bool :=
  connect_ok c && file_exists c
  && match file_json c, existing c with
     | Some _, Some n =>
         (0 <? n) && negb (JSString.eqb (toLowerCase c (answer c)) (str "y"))
     | _, _ => false
     end.

(** Every call up to [createIndexes] succeeds, the operator agreeing
    where asked. *)
Definition completes (c : conditions) : bool :=
  connect_ok c && file_exists c
  && match file_json c, existing c, inserted c with
     | Some _, Some n, Some _ =>
         (if 0 <? n
          then JSString.eqb (toLowerCase c (answer c)) (str "y") && delete_ok c
          else true)
         && indexes_ok c
     | _, _, _ => false
     end.

Definition is_exit (e : seed_event) : bool :=
  match e with
  | ProcessExit _ => true
  | _ => false
  end.

End Seed.

(** ** More sample stores and runs *)

Module Cases.

Import JSString Json Mongo Express Spec Samples.
Local Open Scope string_scope.
Local Open Scope Z_scope.
Local Open Scope list_scope.

(** Four hundred records. *)
Definition large_store : store :=
  {| connected := true; docs := repeat (quote id_a "A" "Bhagavad Gita") 400 |}.

(** The three quotes, out of reach. *)
Definition unreachable_store : store :=
  {| connected := false; docs := docs three_quotes |}.

(** One hour past noon of 1 July 2024, UTC. *)
Definition july_first_1300 : Z := july_first_noon + 3600000.

(** A reseeding run on a store of three quotes, the operator answering
    "Y", every call succeeding. *)
Definition reseed_run : Seed.conditions :=
  {| Seed.connect_ok := true;
     Seed.file_exists := true;
     Seed.file_json := Some [quote id_a "A" "Bhagavad Gita"];
     Seed.existing := Some 3;
     Seed.answer := str "Y";
     Seed.toLowerCase := map lower;
     Seed.delete_ok := true;
     Seed.inserted := Some 1%nat;
     Seed.indexes_ok := true;
     Seed.close_ok := true |}.

End Cases.

(** * Properties *)

Import JSString Json Mongo Express Spec Samples.
Open Scope string_scope.
Open Scope Z_scope.
Open Scope list_scope.

(** ** Rounding to binary64 *)

Module Rounding.

Import JSNumber.

Lemma round53_small (n : Z) : 0 <= n < 2 ^ 53 -> round53 n = n.
Proof.
  intros [H0 H1]. unfold round53.
  destruct (Z.leb_spec (Z.log2 n + 1) 53) as [_ | Hgt]; [reflexivity | exfalso].
  assert (0 < n) by (destruct (Z.eq_dec n 0); [subst; cbn in Hgt; lia | lia]).
  pose proof (Z.log2_lt_pow2 n 53 ltac:(lia)) as [Hl _]. specialize (Hl H1). lia.
Qed.

Lemma round53_split (n : Z) :
  0 <= n -> 53 < Z.log2 n + 1 ->
  let s := Z.log2 n - 52 in
  let q := n / 2 ^ s in
  let r := n mod 2 ^ s in
  let h := 2 ^ (s - 1) in
  round53 n = (if (h <? r) || ((h =? r) && Z.odd q) then q + 1 else q) * 2 ^ s
  /\ 2 ^ s = 2 * h /\ 0 < h /\ h * 2 ^ 53 <= n /\ n = q * 2 ^ s + r /\ 0 <= r < 2 ^ s.
Proof.
  intros H0 Hb s q r h.
  assert (Hs : 1 <= s) by (unfold s; lia).
  assert (Hpos : 0 < n) by (destruct (Z.eq_dec n 0); [subst; cbn in Hb; lia | lia]).
  assert (Hp : 0 < 2 ^ s) by (apply Z.pow_pos_nonneg; lia).
  split; [| repeat split].
  - unfold round53.
    destruct (Z.leb_spec (Z.log2 n + 1) 53); [lia |].
    replace (Z.log2 n + 1 - 53) with s by (unfold s; lia).
    rewrite Z.shiftr_div_pow2, Z.land_ones, !Z.shiftl_mul_pow2 by lia.
    rewrite Z.mul_1_l. reflexivity.
  - unfold h. replace s with (Z.succ (s - 1)) at 1 by lia.
    rewrite Z.pow_succ_r by lia. reflexivity.
  - unfold h. apply Z.pow_pos_nonneg; lia.
  - unfold h. rewrite <- Z.pow_add_r by lia.
    replace (s - 1 + 53) with (Z.log2 n) by (unfold s; lia).
    apply Z.log2_spec; lia.
  - unfold q, r. rewrite Z.mul_comm. apply Z.div_mod. lia.
  - unfold r. apply Z.mod_pos_bound; lia.
  - unfold r. apply Z.mod_pos_bound; lia.
Qed.

Lemma round53_upper (n : Z) : 0 <= n -> round53 n * 2 ^ 53 <= n * 2 ^ 53 + n.
Proof.
  intros H0.
  destruct (Z.leb_spec (Z.log2 n + 1) 53) as [Hle | Hgt].
  - unfold round53. apply Z.leb_le in Hle. rewrite Hle. lia.
  - destruct (round53_split n H0 Hgt) as (-> & H2 & Hh & Hn & Hq & Hr).
    set (s := Z.log2 n - 52) in *. set (q := n / 2 ^ s) in *.
    set (r := n mod 2 ^ s) in *. set (h := 2 ^ (s - 1)) in *.
    assert (0 < 2 ^ 53) by (apply Z.pow_pos_nonneg; lia).
    destruct ((h <? r) || ((h =? r) && Z.odd q)) eqn:E.
    + assert (h <= r).
      { apply orb_true_iff in E as [E | E]; [apply Z.ltb_lt in E; lia |].
        apply andb_true_iff in E as [E _]. apply Z.eqb_eq in E. lia. }
      nia.
    + nia.
Qed.

Lemma round53_nonneg (n : Z) : 0 <= n -> 0 <= round53 n.
Proof.
  intros H0.
  destruct (Z.leb_spec (Z.log2 n + 1) 53) as [Hle | Hgt].
  - unfold round53. apply Z.leb_le in Hle. rewrite Hle. lia.
  - destruct (round53_split n H0 Hgt) as (-> & H2 & Hh & Hn & Hq & Hr).
    set (s := Z.log2 n - 52) in *. set (q := n / 2 ^ s) in *.
    assert (0 <= q) by (apply Z.div_pos; lia).
    destruct (_ || _); nia.
Qed.

Lemma unit_double_below_one (r : unit_double) :
  unit_double_ok r -> mant r * 2 ^ 53 <= (2 ^ 53 - 1) * 2 ^ expo r.
Proof.
  intros (He & Hm & Hlt).
  destruct (Z.le_gt_cases 53 (expo r)) as [Hge | Hsm].
  - assert (2 ^ 53 <= 2 ^ expo r) by (apply Z.pow_le_mono_r; lia). nia.
  - assert (2 ^ expo r <= 2 ^ 53) by (apply Z.pow_le_mono_r; lia).
    assert (0 < 2 ^ expo r) by (apply Z.pow_pos_nonneg; lia). nia.
Qed.

Lemma floor_mul_range (r : unit_double) (count : Z) :
  unit_double_ok r -> 0 < count -> 0 <= floor_mul r count < count.
Proof.
  intros Hok Hc. pose proof (unit_double_below_one r Hok) as Hb.
  destruct Hok as (He & Hm & Hlt). unfold floor_mul.
  assert (Hp : 0 < 2 ^ expo r) by (apply Z.pow_pos_nonneg; lia).
  assert (Hn : 0 <= mant r * count) by nia.
  pose proof (round53_nonneg _ Hn) as Hr0.
  pose proof (round53_upper _ Hn) as Hr1.
  split.
  - apply Z.div_pos; lia.
  - apply Z.div_lt_upper_bound; [lia |].
    set (R := round53 (mant r * count)) in *.
    set (P := 2 ^ expo r) in *. set (m := mant r) in *.
    assert (H53 : 2 ^ 53 = 9007199254740992) by reflexivity.
    rewrite H53 in *.
    assert (R * 9007199254740992 * 9007199254740992
            <= count * (m * 9007199254740992) * 9007199254740993) by nia.
    assert (count * (m * 9007199254740992) * 9007199254740993
            <= count * (9007199254740991 * P) * 9007199254740993).
    { apply Z.mul_le_mono_nonneg_r; [lia |].
      apply Z.mul_le_mono_nonneg_l; lia. }
    nia.
Qed.

End Rounding.

(** ** Store queries *)

Lemma filter_all_true {A} (f : A -> bool) (l : list A) :
  (forall x, f x = true) -> filter f l = l.
Proof.
  intros H. induction l as [| a l IH]; simpl; [reflexivity |].
  rewrite H, IH. reflexivity.
Qed.

Lemma first_after_skip {A} (l : list A) (n : nat) (d : A) :
  nth_error l n = Some d -> firstn 1 (skipn n l) = [d].
Proof.
  revert l. induction n as [| n IH]; intros [| a l] H; simpl in *; try discriminate.
  - injection H as ->. reflexivity.
  - apply IH. exact H.
Qed.

Lemma nth_in_range {A} (l : list A) (z : Z) :
  0 <= z < Z.of_nat (List.length l) -> exists d, nth_error l (Z.to_nat z) = Some d.
Proof.
  intros H. destruct (nth_error l (Z.to_nat z)) eqn:E; [eauto |].
  apply nth_error_None in E. lia.
Qed.

(** [findOne().skip(n).select('-__v').lean()] on a connected store *)
Lemma exec_findOne_at (r : runtime) (s : store) (n : Z) (d : document) :
  connected s = true -> 0 <= n < 2 ^ 63 ->
  nth_error (docs s) (Z.to_nat n) = Some d ->
  exec r s (lean (select "-__v" (skip (JSNumber.Fin n) Quote_findOne)))
  = inr [VDoc false (obj_delete "__v" d)].
Proof.
  intros Hc Hn Hd. unfold exec. cbn [q_filter q_skip q_limit q_single q_lean q_exclude
    lean select skip Quote_findOne filter_ok negb window_arg].
  rewrite Hc. cbn [negb].
  replace ((0 <=? n) && (n <? 2 ^ 63)) with true
    by (symmetry; apply andb_true_iff; split; [apply Z.leb_le | apply Z.ltb_lt]; lia).
  rewrite filter_all_true by reflexivity.
  rewrite (first_after_skip _ _ _ Hd). reflexivity.
Qed.

(** C2. GET /api/quote/random: with no record the handler answers 404
    with the "No quotes found in database" body after the count alone,
    no random number drawn; with [count > 0] records the offset
    [Math.floor(Math.random() * count)] lies in [0, count) and the
    answer is 200 with the record at that offset. *)
Theorem random_quote_contract (w : world) (req : request) :
  store_ok (db w) ->
  JSNumber.unit_double_ok (random w) ->
  let count := count_of (db w) in
  let offset := JSNumber.floor_mul (random w) count in
  (count = 0 ->
     serve get_random w req
     = (error_response 404 "No quotes found in database", [CountDocuments]))
  /\ (0 < count ->
        0 <= offset < count
        /\ exists d,
             nth_error (docs (db w)) (Z.to_nat offset) = Some d
             /\ serve get_random w req
                = ({| status := 200;
                      body := VObj [("success", VBool true);
                                    ("timestamp", VStr (toISOString (rt w) (clock w 0)));
                                    ("data", lean_record d)] |},
                   [CountDocuments; MathRandom;
                    Exec (lean (select "-__v" (skip (JSNumber.Fin offset) Quote_findOne)));
                    NewDate])).
Proof.
  intros [Hc Hsafe] Hr count offset. split.
  - intros H0. unfold serve, get_random, bind, await_count, countDocuments.
    rewrite Hc. cbn [lift]. fold (count_of (db w)). fold count. rewrite H0. reflexivity.
  - intros Hpos.
    pose proof (Rounding.floor_mul_range (random w) count Hr Hpos) as Hoff.
    fold offset in Hoff. split; [exact Hoff |].
    destruct (nth_in_range (docs (db w)) offset) as [d Hd]; [unfold count, count_of in Hoff; lia |].
    exists d. split; [exact Hd |].
    unfold serve, get_random, bind, await_count, countDocuments, await_one, await_many.
    rewrite Hc. cbn [lift]. fold (count_of (db w)). fold count.
    replace (count =? 0) with false by (symmetry; apply Z.eqb_neq; lia).
    unfold Math_random, bind. fold offset.
    assert (H63 : 2 ^ 53 < 2 ^ 63) by reflexivity.
    rewrite (exec_findOne_at (rt w) (db w) offset d Hc);
      [| unfold count, count_of in Hoff; lia | exact Hd].
    reflexivity.
Qed.

(** ** The calendar and the daily quote *)

Module CalendarFacts.
Import Calendar.

Lemma YearFromDay_spec (d : Z) :
  DayFromYear (YearFromDay d) <= d < DayFromYear (YearFromDay d + 1).
Proof.
  unfold YearFromDay, DayFromYear.
  repeat match goal with
         | |- context [if ?b then _ else _] =>
             let E := fresh "E" in destruct b eqn:E
         end;
  repeat match goal with
         | H : (_ <? _) = true |- _ => apply Z.ltb_lt in H
         | H : (_ <? _) = false |- _ => apply Z.ltb_ge in H
         | H : (_ <=? _) = true |- _ => apply Z.leb_le in H
         | H : (_ <=? _) = false |- _ => apply Z.leb_gt in H
         end;
  Z.div_mod_to_equations; lia.
Qed.

Lemma DaysInYear_step (y : Z) : DayFromYear (y + 1) = DayFromYear y + DaysInYear y.
Proof.
  unfold DayFromYear, DaysInYear.
  repeat match goal with
         | |- context [if ?b then _ else _] =>
             let E := fresh "E" in destruct b eqn:E
         end;
  repeat match goal with
         | H : negb _ = true |- _ => apply negb_true_iff in H
         | H : negb _ = false |- _ => apply negb_false_iff in H
         end;
  repeat match goal with
         | H : (_ =? _) = true |- _ => apply Z.eqb_eq in H
         | H : (_ =? _) = false |- _ => apply Z.eqb_neq in H
         end;
  Z.div_mod_to_equations; lia.
Qed.

Lemma DaysInYear_cases (y : Z) : DaysInYear y = 365 \/ DaysInYear y = 366.
Proof.
  unfold DaysInYear.
  repeat match goal with
         | |- context [if ?b then _ else _] => destruct b
         end; auto.
Qed.

(** The ordinal of a day runs from 1 to the length of its year. *)
Lemma ordinal_day_range (tz : timezone) (t : Z) :
  1 <= ordinal_day tz t <= DaysInYear (getFullYear tz t).
Proof.
  unfold ordinal_day, DayWithinYear, getFullYear, YearFromTime.
  pose proof (YearFromDay_spec (Day (LocalTime tz t))) as H.
  rewrite DaysInYear_step in H. lia.
Qed.

End CalendarFacts.

(** In a zone whose offset never changes, [dayOfYear] is the ordinal of the
    local calendar day. *)
Lemma day_of_year_fixed_zone (off now : Z) :
  0 <= now + off ->
  day_of_year (Calendar.fixed_zone off) now
  = Calendar.ordinal_day (Calendar.fixed_zone off) now.
Proof.
  intros Hpos.
  unfold day_of_year, Calendar.Date_ymd, Calendar.ordinal_day, Calendar.DayWithinYear,
    Calendar.getFullYear, Calendar.UTC, Calendar.LocalTime, Calendar.MakeDate,
    Calendar.MakeDay, Calendar.fixed_zone; cbn [Calendar.offset_at_utc Calendar.offset_at_local].
  set (y := Calendar.YearFromTime (now + off)).
  assert (Hy : 1970 <= y).
  { unfold y, Calendar.YearFromTime.
    pose proof (CalendarFacts.YearFromDay_spec (Calendar.Day (now + off))) as [_ H].
    assert (0 <= Calendar.Day (now + off)) by (apply Z.div_pos; [lia | reflexivity]).
    unfold Calendar.DayFromYear in H. Z.div_mod_to_equations. lia. }
  replace ((0 <=? y) && (y <=? 99)) with false
    by (symmetry; apply andb_false_iff; right; apply Z.leb_gt; lia).
  change (0 / 12) with 0. change (0 mod 12) with 0. cbn [Calendar.DaysBeforeMonth].
  change (1000 * 60 * 60 * 24) with Calendar.msPerDay.
  unfold Calendar.Day.
  replace (y + 0) with y by lia.
  replace (now - ((Calendar.DayFromYear y + 0 + 0 - 1) * Calendar.msPerDay + 0 - off))
    with ((now + off) + (1 - Calendar.DayFromYear y) * Calendar.msPerDay) by ring.
  rewrite Z.div_add by (unfold Calendar.msPerDay; lia). ring.
Qed.

Lemma lift_count (s : store) :
  connected s = true -> lift (countDocuments s) = Ok (count_of s).
Proof. intros H. unfold countDocuments. rewrite H. reflexivity. Qed.

(** GET /api/quote/daily on a store that answers: 404 without records,
    else the record at [dayOfYear % count] together with [dayOfYear]. *)
Lemma daily_quote_response (w : world) (req : request) :
  store_ok (db w) ->
  let count := count_of (db w) in
  let dayOfYear := day_of_year (zone (rt w)) (clock w 0) in
  (count = 0 ->
     serve get_daily w req
     = (error_response 404 "No quotes found in database", [CountDocuments]))
  /\ (0 < count -> 0 <= dayOfYear ->
        exists d,
          nth_error (docs (db w)) (Z.to_nat (dayOfYear mod count)) = Some d
          /\ fst (serve get_daily w req)
             = {| status := 200;
                  body := VObj [("success", VBool true);
                                ("timestamp", VStr (toISOString (rt w) (clock w 1)));
                                ("data", lean_record d);
                                ("dayOfYear", VNum (JSNumber.Fin dayOfYear))] |}).
Proof.
  intros [Hc Hsafe] count dayOfYear. split.
  - intros H0. unfold serve, get_daily, bind, await_count.
    rewrite (lift_count _ Hc). fold count. rewrite H0. reflexivity.
  - intros Hpos Hday.
    assert (Hidx : 0 <= dayOfYear mod count < count) by (apply Z.mod_pos_bound; lia).
    destruct (nth_in_range (docs (db w)) (dayOfYear mod count)) as [d Hd];
      [exact Hidx |].
    exists d. split; [exact Hd |].
    unfold serve, get_daily, bind, await_count, await_one, await_many.
    rewrite (lift_count _ Hc). fold count.
    replace (count =? 0) with false by (symmetry; apply Z.eqb_neq; lia).
    unfold the_runtime, new_Date, bind. cbn [ticks emit log].
    fold dayOfYear. rewrite Z.rem_mod_nonneg by lia.
    assert (H63 : 2 ^ 53 < 2 ^ 63) by reflexivity.
    rewrite (exec_findOne_at (rt w) (db w) (dayOfYear mod count) d Hc);
      [| unfold count, count_of in *; lia | exact Hd].
    reflexivity.
Qed.

(** C3. GET /api/quote/daily in a zone with summer time: half past
    midnight and noon of 1 July 2024 are the same calendar day, the
    183rd of its year, yet [dayOfYear] is 182 at the first and 183 at
    the second, and the two requests return different records. *)
Theorem daily_quote_first_hour_of_summer_day :
  let tz := central_european_2024 in
  let early := world_of tz three_quotes half july_first_0030 in
  let noon := world_of tz three_quotes half july_first_noon in
  Calendar.local_day tz july_first_0030 = Calendar.local_day tz july_first_noon
  /\ Calendar.ordinal_day tz july_first_0030 = 183
  /\ Calendar.ordinal_day tz july_first_noon = 183
  /\ body_field (fst (serve get_daily early no_request)) "dayOfYear"
     = Some (VNum (JSNumber.Fin 182))
  /\ body_field (fst (serve get_daily noon no_request)) "dayOfYear"
     = Some (VNum (JSNumber.Fin 183))
  /\ body_field (fst (serve get_daily early no_request)) "data"
     = Some (lean_record (quote id_c "C" "Rig Veda"))
  /\ body_field (fst (serve get_daily noon no_request)) "data"
     = Some (lean_record (quote id_a "A" "Bhagavad Gita")).
Proof. vm_compute. repeat split; reflexivity. Qed.

(** ** Numbers and the page window *)

Module NumberFacts.
Import JSNumber.

Lemma round53_ge (n : Z) : 2 ^ 53 <= n -> 2 ^ 53 <= round53 n.
Proof.
  intros Hn.
  assert (H53 : 0 < 2 ^ 53) by reflexivity.
  destruct (Z.leb_spec (Z.log2 n + 1) 53) as [Hle | Hgt].
  - unfold round53. apply Z.leb_le in Hle. rewrite Hle. exact Hn.
  - destruct (Rounding.round53_split n ltac:(lia) Hgt) as (-> & H2 & Hh & Hb & Hq & Hr).
    set (s := Z.log2 n - 52) in *. set (q := n / 2 ^ s) in *.
    set (r := n mod 2 ^ s) in *. set (h := 2 ^ (s - 1)) in *.
    assert (H52 : 2 ^ 53 = 2 * 2 ^ 52) by reflexivity.
    assert (Hq52 : 2 ^ 52 <= q).
    { unfold q. apply Z.div_le_lower_bound; [lia |]. nia. }
    assert (0 < 2 ^ 52) by reflexivity.
    destruct (_ || _); nia.
Qed.

Lemma of_Z_small (z : Z) : Z.abs z < 2 ^ 53 -> of_Z z = Fin z.
Proof.
  intros Hz. unfold of_Z, roundZ.
  rewrite Rounding.round53_small by lia.
  replace (Z.sgn z * Z.abs z) with z by (destruct z; cbn; lia).
  replace (2 ^ 1024 <=? Z.abs z) with false; [reflexivity |].
  symmetry. apply Z.leb_gt.
  apply Z.lt_trans with (2 ^ 53); [exact Hz |].
  apply Z.pow_lt_mono_r; lia.
Qed.

Lemma of_Z_nonneg (z : Z) :
  0 <= z -> of_Z z = Inf false \/ exists r, of_Z z = Fin r /\ r = round53 z.
Proof.
  intros Hz. unfold of_Z, roundZ.
  replace (z <? 0) with false by (symmetry; apply Z.ltb_ge; lia).
  destruct (2 ^ 1024 <=? _); [left; reflexivity | right].
  eexists. split; [reflexivity |].
  rewrite Z.abs_eq by lia.
  destruct (Z.eq_dec z 0) as [-> | Hne]; [reflexivity |].
  rewrite Z.sgn_pos by lia. lia.
Qed.

(** Comparing a rounded product with a safe integer is comparing the
    exact product. *)
Lemma lt_of_Z_safe (x t : Z) :
  0 <= x -> t < 2 ^ 53 -> lt (of_Z x) (Fin t) = (x <? t).
Proof.
  intros Hx Ht.
  destruct (Z.lt_ge_cases x (2 ^ 53)) as [Hs | Hb].
  - rewrite of_Z_small by lia. reflexivity.
  - replace (x <? t) with false by (symmetry; apply Z.ltb_ge; lia).
    destruct (of_Z_nonneg x Hx) as [-> | (r & -> & ->)]; [reflexivity |].
    cbn [lt]. apply Z.ltb_ge. pose proof (round53_ge x Hb). lia.
Qed.

Lemma max_one (a : number) : max (Fin 1) a = at_least 1 a.
Proof.
  destruct a as [| n | []]; cbn; try reflexivity.
  destruct (Z.ltb_spec 1 n); f_equal; lia.
Qed.

Lemma min_fifty (a : number) : min (Fin 50) a = at_most 50 a.
Proof.
  destruct a as [| n | []]; cbn; try reflexivity.
  destruct (Z.ltb_spec n 50); f_equal; lia.
Qed.

Lemma or_Fin (a : number) (d : Z) : or a (Fin d) = or_default a d.
Proof.
  destruct a as [| n | s]; unfold or, or_default, truthy; try reflexivity.
  destruct (Z.eqb_spec n 0); subst; reflexivity.
Qed.

End NumberFacts.

Lemma get_quotes_log (w : world) (req : request) :
  exists rest,
    snd (serve get_quotes w req)
    = Exec (page_query (page_bounds req)) :: CountDocuments :: rest.
Proof.
  unfold serve, get_quotes, bind, Promise_all2, await_many, await_count.
  fold (page_query (page_bounds req)).
  destruct (lift (exec (rt w) (db w) (page_query (page_bounds req)))) as [quotes | e];
    destruct (lift (countDocuments (db w))) as [total | e'];
    cbn; eexists; reflexivity.
Qed.

(** The page window in terms of what [parseInt] reads. *)
Lemma page_window_facts (req : request) :
  let P := parseInt (ToString (req_query req "page")) in
  let L := parseInt (ToString (req_query req "limit")) in
  let b := page_bounds req in
  w_page b = at_least 1 (or_default P 1)
  /\ w_limit b = at_most 50 (at_least 1 (or_default L 10))
  /\ w_skip b = JSNumber.mul (JSNumber.sub (w_page b) (JSNumber.Fin 1)) (w_limit b)
  /\ (exists l, w_limit b = JSNumber.Fin l /\ 1 <= l <= 50)
  /\ ((exists p, w_page b = JSNumber.Fin p /\ 1 <= p) \/ w_page b = JSNumber.Inf false)
  /\ (P = JSNumber.NaN -> w_page b = JSNumber.Fin 1)
  /\ (L = JSNumber.NaN -> w_limit b = JSNumber.Fin 10)
  /\ (req_query req "page" = QUndefined -> w_page b = JSNumber.Fin 1)
  /\ (req_query req "limit" = QUndefined -> w_limit b = JSNumber.Fin 10)
  /\ (forall p l, w_page b = JSNumber.Fin p -> w_limit b = JSNumber.Fin l ->
                  (p - 1) * l < 2 ^ 53 -> w_skip b = JSNumber.Fin ((p - 1) * l))
  /\ (forall w, exists rest,
         snd (serve get_quotes w req) = Exec (page_query b) :: CountDocuments :: rest).
Proof.
  intros P L b.
  assert (Hp : w_page b = at_least 1 (or_default P 1)).
  { unfold b, page_bounds; cbn [w_page]. fold P.
    rewrite NumberFacts.or_Fin, NumberFacts.max_one. reflexivity. }
  assert (Hl : w_limit b = at_most 50 (at_least 1 (or_default L 10))).
  { unfold b, page_bounds; cbn [w_limit]. fold L.
    rewrite NumberFacts.or_Fin, NumberFacts.max_one, NumberFacts.min_fifty. reflexivity. }
  assert (Hlr : exists l, w_limit b = JSNumber.Fin l /\ 1 <= l <= 50).
  { rewrite Hl. destruct L as [| n | []]; cbn; eexists; (split; [reflexivity |]);
      try destruct (n =? 0); lia. }
  assert (Hpr : (exists p, w_page b = JSNumber.Fin p /\ 1 <= p) \/ w_page b = JSNumber.Inf false).
  { rewrite Hp. destruct P as [| n | []]; cbn; try (right; reflexivity);
      left; eexists; (split; [reflexivity |]); lia. }
  refine (conj Hp (conj Hl (conj eq_refl (conj Hlr (conj Hpr
           (conj _ (conj _ (conj _ (conj _ (conj _ _)))))))))).
  - intros HP. rewrite Hp, HP. reflexivity.
  - intros HL. rewrite Hl, HL. reflexivity.
  - intros Hq. rewrite Hp. unfold P. rewrite Hq. reflexivity.
  - intros Hq. rewrite Hl. unfold L. rewrite Hq. reflexivity.
  - intros p l Hpp Hll Hprod.
    change (w_skip b) with (JSNumber.mul (JSNumber.sub (w_page b) (JSNumber.Fin 1)) (w_limit b)).
    rewrite Hpp, Hll.
    destruct Hlr as (l' & Hl' & Hlb). rewrite Hll in Hl'. injection Hl' as <-.
    assert (1 <= p).
    { destruct Hpr as [(p' & Hp' & Hpb) | Hinf]; rewrite Hpp in *; [| discriminate].
      injection Hp' as <-. exact Hpb. }
    assert (0 <= p - 1 < 2 ^ 53) by nia.
    unfold JSNumber.sub, JSNumber.neg, JSNumber.add.
    rewrite NumberFacts.of_Z_small by lia.
    unfold JSNumber.mul. replace (p + -1) with (p - 1) by lia.
    apply NumberFacts.of_Z_small. nia.
  - intros w. apply get_quotes_log.
Qed.

Lemma exec_inr (r : runtime) (s : store) (q : Mongo.query) (res : list value) :
  exec r s q = inr res ->
  connected s = true
  /\ (exists sk, window_arg (q_skip q) = Some sk)
  /\ (exists lim, window_arg (q_limit q) = Some lim).
Proof.
  unfold exec. destruct (filter_ok r (q_filter q)); cbn [negb]; [| discriminate].
  destruct (connected s); cbn [negb]; [| discriminate].
  destruct (window_arg (q_skip q)) as [sk |]; [| discriminate].
  destruct (window_arg (q_limit q)) as [lim |]; [| discriminate].
  intros _. eauto.
Qed.

Lemma error_handler_status (r : runtime) (e : store_error) :
  status (error_handler r e) <> 200.
Proof. destruct e; cbn; discriminate. Qed.

(** A 200 answer of GET /api/quotes means both store calls succeeded. *)
Lemma get_quotes_ok (w : world) (req : request) :
  status (fst (serve get_quotes w req)) = 200 ->
  exists quotes,
    exec (rt w) (db w) (page_query (page_bounds req)) = inr quotes
    /\ connected (db w) = true
    /\ fst (serve get_quotes w req)
       = res_json 200
           [("success", VBool true);
            ("timestamp", VStr (toISOString (rt w) (clock w 0)));
            ("data", VArr quotes);
            ("pagination",
             VObj (pagination (w_page (page_bounds req)) (w_limit (page_bounds req))
                     (count_of (db w))))].
Proof.
  unfold serve, get_quotes, bind, Promise_all2, await_many, await_count.
  fold (page_query (page_bounds req)).
  destruct (exec (rt w) (db w) (page_query (page_bounds req))) as [e | quotes] eqn:E;
    cbn [lift].
  - destruct (lift (countDocuments (db w))); cbn [fst];
      intros H; exfalso; exact (error_handler_status _ _ H).
  - destruct (exec_inr _ _ _ _ E) as (Hc & _).
    rewrite (lift_count _ Hc). cbn. intros _. exists quotes. auto.
Qed.

(** C5. GET /api/quotes, whenever the answer is 200 (the record count
    being a safe integer): currentPage is the clamped page,
    itemsPerPage the clamped limit, which is clamp(n, 1, 50) when
    parseInt reads the limit as a non-zero integer n and 10 when it
    reads NaN or 0; totalPages is ceil(totalItems / itemsPerPage),
    totalItems the record count, hasNextPage is
    page * itemsPerPage < totalItems and hasPrevPage is page > 1. *)
Theorem pagination_block (w : world) (req : request) :
  count_of (db w) < 2 ^ 53 ->
  status (fst (serve get_quotes w req)) = 200 ->
  let r := fst (serve get_quotes w req) in
  let L := parseInt (ToString (req_query req "limit")) in
  let total := count_of (db w) in
  exists p l,
    w_page (page_bounds req) = JSNumber.Fin p
    /\ w_limit (page_bounds req) = JSNumber.Fin l
    /\ 1 <= p /\ 1 <= l <= 50
    /\ (forall n, L = JSNumber.Fin n -> l = clamp (if n =? 0 then 10 else n) 1 50)
    /\ (L = JSNumber.NaN -> l = 10)
    /\ pagination_field r "itemsPerPage" = Some (VNum (JSNumber.Fin l))
    /\ pagination_field r "currentPage" = Some (VNum (JSNumber.Fin p))
    /\ pagination_field r "totalPages" = Some (VNum (JSNumber.Fin (ceiling total l)))
    /\ pagination_field r "totalItems" = Some (VNum (JSNumber.Fin total))
    /\ pagination_field r "hasNextPage" = Some (VBool (p * l <? total))
    /\ pagination_field r "hasPrevPage" = Some (VBool (1 <? p)).
Proof.
  intros Hsafe H200 r L total.
  destruct (get_quotes_ok w req H200) as (quotes & Hexec & Hc & Hr).
  destruct (page_window_facts req)
    as (Hp & Hl & Hs & (l & Hll & Hlb) & Hpr & _ & HLnan & _).
  destruct (exec_inr _ _ _ _ Hexec) as (_ & (sk & Hsk) & _).
  cbn [page_query lean Mongo.limit Mongo.skip q_skip] in Hsk.
  assert (Hpage : exists p, w_page (page_bounds req) = JSNumber.Fin p /\ 1 <= p).
  { destruct Hpr as [Hfin | Hinf]; [exact Hfin | exfalso].
    rewrite Hs, Hinf, Hll in Hsk. cbn in Hsk.
    destruct (l =? 0); discriminate. }
  destruct Hpage as (p & Hpp & Hpb).
  exists p, l. fold L in Hl, HLnan.
  refine (conj Hpp (conj Hll (conj Hpb (conj Hlb (conj _ (conj _ _)))))).
  - intros n HL. rewrite Hl, HL in Hll. cbn in Hll. injection Hll as <-.
    unfold clamp. reflexivity.
  - intros HL. specialize (HLnan HL). rewrite Hll in HLnan. injection HLnan as ->.
    reflexivity.
  - unfold r. rewrite Hr. unfold pagination. rewrite Hpp, Hll.
    unfold JSNumber.ceil_div, JSNumber.gt.
    replace (l =? 0) with false by (symmetry; apply Z.eqb_neq; lia).
    unfold JSNumber.mul. rewrite NumberFacts.lt_of_Z_safe by (fold total; nia).
    cbn [JSNumber.lt]. fold total. unfold ceiling.
    repeat split; reflexivity.
Qed.

(** C5, as stated: a limit that reads as the integer 0 does not give
    clamp(0, 1, 50) = 1 items per page. *)
Lemma items_per_page_limit_zero :
  ~ (forall (w : world) (req : request) (n : Z),
       status (fst (serve get_quotes w req)) = 200 ->
       parseInt (ToString (req_query req "limit")) = JSNumber.Fin n ->
       pagination_field (fst (serve get_quotes w req)) "itemsPerPage"
       = Some (VNum (JSNumber.Fin (clamp n 1 50)))).
Proof.
  intros H.
  specialize (H sample_world (with_page_limit "1" "0") 0 eq_refl eq_refl).
  vm_compute in H. discriminate H.
Qed.


(** ** Escaping the search text *)

Lemma special_characters_are_metacharacters : special_characters = metacharacters.
Proof. reflexivity. Qed.

Ltac split_mem H :=
  unfold mem, metacharacters in H; cbn [existsb] in H;
  repeat (apply orb_false_iff in H; let E := fresh "E" in destruct H as [E H]).

Lemma metacharacter_not_alnum (c : N) :
  mem c metacharacters = true -> is_alnum c = false.
Proof.
  unfold mem, metacharacters; cbn [existsb]. intros H.
  repeat (apply orb_true_iff in H; destruct H as [H | H]);
    try (apply N.eqb_eq in H; subst c; reflexivity).
  discriminate H.
Qed.

Lemma plain_character (c : N) :
  mem c metacharacters = false ->
  (c =? 92)%N = false /\ mem c pattern_meta = false.
Proof.
  intros H. split_mem H. split; [assumption |].
  unfold mem, pattern_meta; cbn [existsb].
  repeat match goal with E : (c =? _)%N = false |- _ => rewrite E; clear E end.
  reflexivity.
Qed.

Lemma replace_from_escaped (before s : jsstring) :
  replace_from special_characters (str "\$&") before s = escaped s.
Proof.
  revert before. induction s as [| c r IH]; intros before; [reflexivity |].
  cbn [replace_from escaped flat_map].
  rewrite special_characters_are_metacharacters at 1.
  destruct (mem c metacharacters).
  - rewrite IH. reflexivity.
  - rewrite IH. reflexivity.
Qed.

Lemma literal_of_escaped (s : jsstring) : literal_of (escaped s) = Some s.
Proof.
  induction s as [| c r IH]; [reflexivity |].
  cbn [escaped flat_map]. fold (escaped r).
  destruct (mem c metacharacters) eqn:E.
  - cbn [app literal_of backslash]. rewrite N.eqb_refl.
    rewrite (metacharacter_not_alnum c E), IH. reflexivity.
  - destruct (plain_character c E) as [Hb Hm].
    cbn [app literal_of]. rewrite Hb, Hm, IH. reflexivity.
Qed.

(** C1. GET /api/quotes/search: the sanitized source is the source with a
    backslash before every occurrence of . * + ? ^ $ { } ( ) | [ ] \ and
    nothing else changed; the store reads that pattern as the plain
    literal text [source], so that the case-insensitive match holds of
    exactly the texts that contain [source], letter case aside. *)
Theorem search_pattern_is_literal (source : jsstring) :
  sanitizedSource source = escaped source
  /\ literal_of (sanitizedSource source) = Some source
  /\ forall (r : runtime) (text : jsstring),
       regex_test r "i" (sanitizedSource source) text = contains_ci r source text.
Proof.
  assert (H : sanitizedSource source = escaped source)
    by apply replace_from_escaped.
  split; [exact H |]. rewrite H. split; [apply literal_of_escaped |].
  intros r text. unfold regex_test. rewrite literal_of_escaped. reflexivity.
Qed.

Lemma regex_test_sanitized (r : runtime) (source text : jsstring) :
  regex_test r "i" (sanitizedSource source) text = contains_ci r source text.
Proof.
  unfold sanitizedSource, replace_class_g. rewrite replace_from_escaped.
  unfold regex_test. rewrite literal_of_escaped. reflexivity.
Qed.

(** The search text of the specification's example, and what it would
    be without the escaping. *)
Example gita_pattern :
  sanitizedSource (str "Gita.*") = str "Gita\.\*"
  /\ literal_of (str "Gita.*") = None
  /\ map (fun d => obj_get "sloka" d)
         (records_by_source (host Calendar.utc_zone) three_quotes (str "Gita.*"))
     = [Some (VStr (str "B"))].
Proof. vm_compute. repeat split; reflexivity. Qed.

(** ** Search *)

Lemma exec_search (r : runtime) (s : store) (text : jsstring) :
  connected s = true ->
  exec r s (search_query text)
  = inr (map (fun d => VDoc false (obj_delete "__v" d))
           (firstn 50 (records_by_source r s text))).
Proof.
  intros Hc. unfold exec, search_query.
  cbn [q_filter q_skip q_limit q_single q_lean q_exclude lean select Mongo.limit
       Quote_find filter_ok negb window_arg].
  rewrite Hc. cbn [negb].
  change ((0 <=? 50) && (50 <? 2 ^ 63)) with true. cbv iota.
  change (Z.to_nat 50) with 50%nat.
  unfold records_by_source. f_equal. f_equal. f_equal.
  apply filter_ext. intros d. cbn [matches].
  destruct (obj_get "source" d) as [[] |]; try reflexivity.
  apply regex_test_sanitized.
Qed.

Lemma exec_limit (r : runtime) (s : store) (q : Mongo.query) (n : Z) (res : list value) :
  exec r s q = inr res -> q_limit q = Some (JSNumber.Fin n) ->
  (List.length res <= Z.to_nat n)%nat.
Proof.
  unfold exec. intros H Hn. rewrite Hn in H.
  destruct (negb (filter_ok r (q_filter q))); [discriminate |].
  destruct (negb (connected s)); [discriminate |].
  destruct (window_arg (q_skip q)) as [sk |]; [| discriminate].
  cbn [window_arg] in H.
  destruct ((0 <=? n) && (n <? 2 ^ 63)); [| discriminate].
  match type of H with
  | inr (map _ (if _ then firstn 1 (firstn ?k ?l) else _)) = _ =>
      pose proof (firstn_le_length k l) as Hk;
      pose proof (length_firstn 1 (firstn k l)) as H1;
      set (cut := firstn k l) in *
  end.
  injection H as <-. rewrite length_map.
  clearbody cut. destruct (q_single q); [destruct cut; cbn in *; lia | lia].
Qed.

(** GET /api/quotes/search, branch by branch. *)
Lemma get_search_rejects (w : world) (req : request) :
  q_truthy (req_query req "source") && typeof_is_string (req_query req "source") = false ->
  serve get_search w req
  = (error_response 400 "Source query parameter is required", []).
Proof.
  intros H. unfold serve, get_search.
  replace (negb (q_truthy (req_query req "source"))
           || negb (typeof_is_string (req_query req "source"))) with true.
  - reflexivity.
  - rewrite <- negb_andb, H. reflexivity.
Qed.

Lemma get_search_runs (w : world) (req : request) (s : jsstring) :
  req_query req "source" = QString s -> s <> [] ->
  serve get_search w req
  = match exec (rt w) (db w) (search_query s) with
    | inr quotes =>
        (res_json 200
           [("success", VBool true);
            ("timestamp", VStr (toISOString (rt w) (clock w 0)));
            ("count", VNum (JSNumber.Fin (Z.of_nat (List.length quotes))));
            ("data", VArr quotes)],
         [Exec (search_query s); NewDate])
    | inl e => (error_handler (rt w) e, [Exec (search_query s)])
    end.
Proof.
  intros Hq Hs. unfold serve, get_search. rewrite Hq.
  destruct s as [| c s']; [contradiction |].
  cbn [q_truthy typeof_is_string negb orb ToString].
  unfold bind, await_many. fold (search_query (c :: s')).
  destruct (exec (rt w) (db w) (search_query (c :: s'))); reflexivity.
Qed.

(** C7. GET /api/quotes/search: a source that is missing, not a
    string, or the empty string is answered 400 without a store call;
    every non-empty string is answered 200, on a store that answers,
    with [count] and [data] for the first 50 records at most whose
    source contains it, none found included. *)
Theorem search_contract (w : world) (req : request) :
  (typeof_is_string (req_query req "source") = false
   \/ req_query req "source" = QString [] ->
     serve get_search w req
     = (error_response 400 "Source query parameter is required", []))
  /\ (forall s, req_query req "source" = QString s -> s <> [] ->
        connected (db w) = true ->
        let found := firstn 50 (records_by_source (rt w) (db w) s) in
        (List.length found <= 50)%nat
        /\ fst (serve get_search w req)
           = {| status := 200;
                body := VObj [("success", VBool true);
                              ("timestamp", VStr (toISOString (rt w) (clock w 0)));
                              ("count", VNum (JSNumber.Fin (Z.of_nat (List.length found))));
                              ("data", VArr (map lean_record found))] |}).
Proof.
  split.
  - intros [H | H]; apply get_search_rejects; rewrite H;
      [apply andb_false_r | reflexivity].
  - intros s Hq Hs Hc found. split; [apply firstn_le_length |].
    rewrite (get_search_runs w req s Hq Hs), (exec_search _ _ _ Hc).
    fold found. cbn [fst]. unfold res_json. cbn.
    rewrite length_map, map_map. reflexivity.
Qed.

(** C7, as stated: the empty string is a string value, and it is not
    answered 200. *)
Lemma search_empty_string_not_200 :
  ~ (forall (w : world) (s : jsstring),
       connected (db w) = true ->
       status (fst (serve get_search w (with_source (QString s)))) = 200).
Proof.
  intros H. specialize (H sample_world [] eq_refl). vm_compute in H. discriminate H.
Qed.

(** C9. GET /api/quotes/search with [source] present and empty: 400 with
    "Source query parameter is required", and no store call. *)
Theorem search_empty_source (w : world) (req : request) :
  req_query req "source" = QString [] ->
  serve get_search w req
  = (error_response 400 "Source query parameter is required", []).
Proof.
  intros H. apply get_search_rejects. rewrite H. reflexivity.
Qed.

(** C10. GET /api/quotes/search: in a 200 answer [count] is the length
    of the [data] array, which is at most 50. *)
Theorem search_count_is_data_length (w : world) (req : request) :
  status (fst (serve get_search w req)) = 200 ->
  exists data,
    body_field (fst (serve get_search w req)) "data" = Some (VArr data)
    /\ body_field (fst (serve get_search w req)) "count"
       = Some (VNum (JSNumber.Fin (Z.of_nat (List.length data))))
    /\ (List.length data <= 50)%nat.
Proof.
  intros H200.
  destruct (q_truthy (req_query req "source") && typeof_is_string (req_query req "source"))
    eqn:E.
  - apply andb_true_iff in E as [Ht Hs].
    destruct (req_query req "source") as [| s | |] eqn:Hq; try discriminate.
    assert (Hne : s <> []) by (intros ->; discriminate).
    rewrite (get_search_runs w req s Hq Hne) in *.
    destruct (exec (rt w) (db w) (search_query s)) as [e | quotes] eqn:Hx.
    + exfalso. exact (error_handler_status _ _ H200).
    + exists (map to_json quotes). cbn. rewrite length_map.
      repeat split.
      apply (exec_limit _ _ _ 50 _ Hx). reflexivity.
  - rewrite (get_search_rejects w req E) in H200. discriminate H200.
Qed.

(** ** Lookup by identifier *)

Lemma first_of_filter {A} (f : A -> bool) (l : list A) :
  firstn 1 (filter f l) = match find f l with Some d => [d] | None => [] end.
Proof.
  induction l as [| a l IH]; [reflexivity |].
  cbn [filter find]. destruct (f a); [reflexivity | exact IH].
Qed.

Lemma exec_findById (r : runtime) (s : store) (id : jsstring) :
  ObjectId_isValid r id = true -> connected s = true ->
  exec r s (lean (select "-__v" (Quote_findById id)))
  = inr match record_with_id r s id with
        | Some d => [VDoc false (obj_delete "__v" d)]
        | None => []
        end.
Proof.
  intros Hv Hc. unfold exec.
  cbn [q_filter q_skip q_limit q_single q_lean q_exclude lean select
       Quote_findById filter_ok negb window_arg].
  rewrite Hv, Hc. cbn [negb]. rewrite first_of_filter.
  fold (record_with_id r s id).
  destruct (record_with_id r s id); reflexivity.
Qed.

(** C6. GET /api/quote/:id: an id that is not a valid identifier is
    answered 400 without any store call; a valid id that no record
    carries is answered 404, and one that a record carries is answered
    200 with that record. *)
Theorem quote_by_id_contract (w : world) (req : request) (id : jsstring) :
  req_param req "id" = Some id ->
  (ObjectId_isValid (rt w) id = false ->
     serve get_by_id w req = (error_response 400 "Invalid quote ID format", []))
  /\ (ObjectId_isValid (rt w) id = true -> connected (db w) = true ->
        match record_with_id (rt w) (db w) id with
        | None =>
            fst (serve get_by_id w req) = error_response 404 "Quote not found"
        | Some d =>
            fst (serve get_by_id w req)
            = {| status := 200;
                 body := VObj [("success", VBool true);
                               ("timestamp", VStr (toISOString (rt w) (clock w 0)));
                               ("data", lean_record d)] |}
        end).
Proof.
  intros Hid. split.
  - intros Hv. unfold serve, get_by_id, bind, the_runtime. rewrite Hid, Hv. reflexivity.
  - intros Hv Hc. unfold serve, get_by_id, bind, the_runtime, await_one, await_many, bind.
    rewrite Hid, Hv. cbn [negb].
    rewrite (exec_findById _ _ _ Hv Hc).
    destruct (record_with_id (rt w) (db w) id); reflexivity.
Qed.

(** ** The shape of returned records *)

Lemma obj_delete_has (k : string) (o : object) : obj_has k (obj_delete k o) = false.
Proof.
  unfold obj_has. induction o as [| [k' v] o IH]; [reflexivity |].
  cbn [obj_delete filter fst]. destruct (String.eqb_spec k k') as [-> | Hne]; cbn [negb].
  - exact IH.
  - cbn [obj_get]. destruct (String.eqb_spec k k'); [contradiction | exact IH].
Qed.

Lemma filter_keeps_absent (k : string) (p : string * value -> bool) (o : object) :
  obj_has k o = false -> obj_has k (filter p o) = false.
Proof.
  unfold obj_has. induction o as [| [k' v] o IH]; [reflexivity |].
  cbn [obj_get filter]. destruct (String.eqb k k') eqn:E; [discriminate |].
  intros H. destruct (p (k', v)); [cbn [obj_get]; rewrite E |]; exact (IH H).
Qed.

(** A lean record never carries [__v], and carries no [id] unless the
    stored record has one. *)
Lemma lean_record_keys (d : document) :
  has_key "__v" (lean_record d) = false
  /\ (obj_has "id" d = false -> has_key "id" (lean_record d) = false).
Proof.
  unfold lean_record, has_key; cbn [to_json]. split.
  - apply filter_keeps_absent, obj_delete_has.
  - intros H. apply filter_keeps_absent. unfold obj_delete.
    apply filter_keeps_absent. exact H.
Qed.

(** C8. On the sample store every read endpoint returns records
    without [__v], yet under the raw key [_id] and without the public
    key [id]: the queries are lean, and the schema's [toJSON]
    transform, which would rename the key, runs on hydrated records
    only. *)
Theorem lean_records_keep_raw_id :
  let answers :=
    [fst (serve get_random sample_world no_request);
     fst (serve get_daily sample_world no_request);
     fst (serve get_by_id sample_world (with_id id_b));
     fst (serve get_search sample_world (with_source (QString (str "Gita"))));
     fst (serve get_quotes sample_world no_request)] in
  map status answers = [200; 200; 200; 200; 200]
  /\ map (fun r => List.length (records_of r)) answers = [1; 1; 1; 2; 3]%nat
  /\ forallb (fun r => forallb raw_shape (records_of r)) answers = true
  /\ forallb (fun d => public_shape (to_json (VDoc true d))) (docs three_quotes) = true.
Proof. vm_compute. repeat split; reflexivity. Qed.

(** ** The contracts on the sample store *)

Lemma random_quote_contract_witness :
  store_ok (db sample_world)
  /\ JSNumber.unit_double_ok (random sample_world)
  /\ status (fst (serve get_random sample_world no_request)) = 200.
Proof.
  assert (Hs : store_ok (db sample_world)) by (split; reflexivity).
  assert (Hr : JSNumber.unit_double_ok (random sample_world))
    by (repeat split; vm_compute; solve [reflexivity | discriminate]).
  split; [exact Hs | split; [exact Hr |]].
  destruct (random_quote_contract sample_world no_request Hs Hr) as [_ H].
  destruct (H eq_refl) as (_ & d & _ & E).
  rewrite E. reflexivity.
Defined.

Lemma pagination_block_witness :
  count_of (db sample_world) < 2 ^ 53
  /\ status (fst (serve get_quotes sample_world (with_page_limit "2" "1"))) = 200
  /\ pagination_field (fst (serve get_quotes sample_world (with_page_limit "2" "1")))
       "hasNextPage" = Some (VBool true).
Proof.
  assert (Hc : count_of (db sample_world) < 2 ^ 53) by reflexivity.
  assert (H200 : status (fst (serve get_quotes sample_world (with_page_limit "2" "1"))) = 200)
    by (vm_compute; reflexivity).
  split; [exact Hc | split; [exact H200 |]].
  destruct (pagination_block sample_world (with_page_limit "2" "1") Hc H200)
    as (p & l & Hp & Hl & _ & _ & _ & _ & _ & _ & _ & _ & Hnext & _).
  vm_compute in Hp. injection Hp as <-.
  vm_compute in Hl. injection Hl as <-.
  rewrite Hnext. reflexivity.
Defined.

Lemma quote_by_id_contract_witness :
  status (fst (serve get_by_id sample_world (with_id "123"))) = 400
  /\ status (fst (serve get_by_id sample_world (with_id id_missing))) = 404
  /\ status (fst (serve get_by_id sample_world (with_id id_b))) = 200.
Proof.
  split; [| split].
  - rewrite (proj1 (quote_by_id_contract sample_world (with_id "123") (str "123") eq_refl)
               eq_refl).
    reflexivity.
  - pose proof (proj2 (quote_by_id_contract sample_world (with_id id_missing)
                         (str id_missing) eq_refl) eq_refl eq_refl) as H.
    assert (E : record_with_id (rt sample_world) (db sample_world) (str id_missing) = None)
      by (vm_compute; reflexivity).
    rewrite E in H. rewrite H. reflexivity.
  - pose proof (proj2 (quote_by_id_contract sample_world (with_id id_b)
                         (str id_b) eq_refl) eq_refl eq_refl) as H.
    assert (E : record_with_id (rt sample_world) (db sample_world) (str id_b)
                = Some (quote id_b "B" "Gita.* commentary"))
      by (vm_compute; reflexivity).
    rewrite E in H. rewrite H. reflexivity.
Defined.

Lemma search_contract_witness :
  status (fst (serve get_search sample_world (with_source (QArray [QString (str "Gita")]))))
  = 400
  /\ status (fst (serve get_search sample_world no_request)) = 400
  /\ serve get_search sample_world (with_source (QString []))
     = (error_response 400 "Source query parameter is required", [])
  /\ status (fst (serve get_search sample_world (with_source (QString (str "Gita"))))) = 200
  /\ status (fst (serve get_search sample_world (with_source (QString (str "Tao"))))) = 200.
Proof.
  split; [| split; [| split; [| split]]].
  - rewrite (proj1 (search_contract sample_world
                      (with_source (QArray [QString (str "Gita")])))
               (or_introl eq_refl)).
    reflexivity.
  - rewrite (proj1 (search_contract sample_world no_request) (or_introl eq_refl)).
    reflexivity.
  - exact (proj1 (search_contract sample_world (with_source (QString [])))
             (or_intror eq_refl)).
  - destruct (proj2 (search_contract sample_world (with_source (QString (str "Gita"))))
                (str "Gita") eq_refl ltac:(discriminate) eq_refl) as [_ H].
    rewrite H. reflexivity.
  - destruct (proj2 (search_contract sample_world (with_source (QString (str "Tao"))))
                (str "Tao") eq_refl ltac:(discriminate) eq_refl) as [_ H].
    rewrite H. reflexivity.
Defined.

Lemma search_empty_source_witness :
  serve get_search sample_world (with_source (QString []))
  = (error_response 400 "Source query parameter is required", []).
Proof.
  apply (search_empty_source sample_world (with_source (QString []))). reflexivity.
Defined.

Lemma search_count_is_data_length_witness :
  status (fst (serve get_search sample_world (with_source (QString (str "Gita"))))) = 200
  /\ exists data,
       body_field (fst (serve get_search sample_world (with_source (QString (str "Gita")))))
         "data" = Some (VArr data)
       /\ body_field (fst (serve get_search sample_world (with_source (QString (str "Gita")))))
            "count" = Some (VNum (JSNumber.Fin (Z.of_nat (List.length data))))
       /\ (List.length data <= 50)%nat.
Proof.
  assert (H200 : status (fst (serve get_search sample_world
                                (with_source (QString (str "Gita"))))) = 200)
    by (vm_compute; reflexivity).
  split; [exact H200 |].
  exact (search_count_is_data_length sample_world _ H200).
Defined.

(** * Further properties *)

Import Listing.

(** ** Decimal query values *)

Lemma digit_not_white (c : N) : is_digit c -> is_white c = false.
Proof.
  unfold is_digit, is_white, mem. intros H. cbn [existsb].
  repeat match goal with
         | |- context [N.eqb c ?k] =>
             replace (N.eqb c k) with false by (symmetry; apply N.eqb_neq; lia)
         end.
  replace (8192 <=? c)%N with false by (symmetry; apply N.leb_gt; lia).
  reflexivity.
Qed.

Lemma digit_value_decimal (c : N) :
  is_digit c -> digit_value 10 c = Some (c - 48)%N.
Proof.
  unfold is_digit, digit_value. intros H.
  replace ((48 <=? c) && (c <=? 57))%N with true
    by (symmetry; apply andb_true_iff; split; apply N.leb_le; lia).
  replace (c - 48 <? 10)%N with true by (symmetry; apply N.ltb_lt; lia).
  reflexivity.
Qed.

Lemma last_digit (n : N) : is_digit (48 + n mod 10)%N.
Proof.
  unfold is_digit. pose proof (N.mod_lt n 10 ltac:(discriminate)) as H.
  remember (n mod 10)%N as x. clear Heqx. lia.
Qed.

Lemma digits_fuel_shape (fuel : nat) (n : N) (acc : jsstring) :
  Forall is_digit acc ->
  (acc <> [] \/ fuel <> O) ->
  Forall is_digit (digits_fuel fuel n acc) /\ digits_fuel fuel n acc <> [].
Proof.
  revert n acc. induction fuel as [| f IH]; intros n acc Hacc Hne.
  - cbn. split; [exact Hacc | destruct Hne; congruence].
  - cbn [digits_fuel].
    pose proof (last_digit n) as Hd.
    destruct (n / 10 =? 0)%N.
    + split; [constructor; assumption | discriminate].
    + apply IH; [constructor; assumption | left; discriminate].
Qed.

Lemma digits_from_fuel (fuel : nat) (n : N) (acc : jsstring) :
  (n < 2 ^ N.of_nat fuel)%N ->
  digits_from 10 None (digits_fuel fuel n acc) = digits_from 10 (Some n) acc
  \/ fuel = O.
Proof.
  revert n acc. induction fuel as [| f IH]; intros n acc Hn; [right; reflexivity | left].
  cbn [digits_fuel].
  pose proof (last_digit n) as Hd.
  pose proof (N.div_mod n 10 ltac:(discriminate)) as Hdm.
  pose proof (N.mod_lt n 10 ltac:(discriminate)) as Hm.
  remember (n mod 10)%N as x eqn:Ex. remember (n / 10)%N as q eqn:Eq.
  destruct (N.eqb_spec q 0) as [Hz | Hnz].
  - cbn [digits_from]. rewrite (digit_value_decimal _ Hd).
    do 2 f_equal. lia.
  - assert (Hlt : (q < 2 ^ N.of_nat f)%N).
    { rewrite Nat2N.inj_succ, N.pow_succ_r' in Hn. lia. }
    destruct (IH q ((48 + x)%N :: acc) Hlt) as [-> | ->].
    + cbn [digits_from]. rewrite (digit_value_decimal _ Hd).
      do 2 f_equal. lia.
    + cbn in Hlt. lia.
Qed.

Lemma decimal_shape (n : Z) :
  exists d rest, decimal n = d :: rest /\ is_digit d /\ Forall is_digit rest.
Proof.
  unfold decimal.
  destruct (digits_fuel_shape (S (N.to_nat (N.log2 (Z.to_N n)))) (Z.to_N n) [])
    as [Hall Hne]; [constructor | right; discriminate |].
  destruct (digits_fuel _ _ _) as [| d rest]; [congruence |].
  inversion Hall; subst. eauto.
Qed.

Lemma digits_from_decimal (n : Z) :
  0 <= n -> digits_from 10 None (decimal n) = Some (Z.to_N n).
Proof.
  intros Hn. unfold decimal.
  destruct (digits_from_fuel (S (N.to_nat (N.log2 (Z.to_N n)))) (Z.to_N n) [])
    as [-> | H]; [| reflexivity | discriminate].
  rewrite Nat2N.inj_succ, N2Nat.id.
  destruct (N.eq_dec (Z.to_N n) 0) as [-> | Hpos]; [reflexivity |].
  apply N.log2_spec. lia.
Qed.

(** [parseInt] reads a decimal numeral as the number it writes. *)
Lemma parseInt_decimal (n : Z) : 0 <= n -> parseInt (decimal n) = JSNumber.of_Z n.
Proof.
  intros Hn. pose proof (digits_from_decimal n Hn) as Hdig.
  destruct (decimal_shape n) as (d & rest & E & Hd & Hrest).
  unfold parseInt. rewrite E in *.
  cbn [trim_start]. rewrite (digit_not_white d Hd).
  replace (d =? 45)%N with false by (symmetry; apply N.eqb_neq; unfold is_digit in Hd; lia).
  replace (d =? 43)%N with false by (symmetry; apply N.eqb_neq; unfold is_digit in Hd; lia).
  assert (Hx : (let '(R, s) :=
                  match d :: rest with
                  | c :: d0 :: r =>
                      if ((c =? 48) && ((d0 =? 120) || (d0 =? 88)))%N
                      then (16%N, r) else (10%N, d :: rest)
                  | _ => (10%N, d :: rest)
                  end in
                match digits_from R None s with
                | Some n0 => JSNumber.of_Z (Z.of_N n0)
                | None => JSNumber.NaN
                end) = JSNumber.of_Z n).
  { destruct rest as [| d0 r].
    - rewrite Hdig. rewrite Z2N.id by lia. reflexivity.
    - inversion Hrest as [| ? ? Hd0 _]; subst.
      replace (d0 =? 120)%N with false
        by (symmetry; apply N.eqb_neq; unfold is_digit in Hd0; lia).
      replace (d0 =? 88)%N with false
        by (symmetry; apply N.eqb_neq; unfold is_digit in Hd0; lia).
      rewrite andb_false_r. rewrite Hdig. rewrite Z2N.id by lia. reflexivity. }
  exact Hx.
Qed.

(** ** The paginated listing *)

Lemma quotes_request_page (p l : Z) :
  1 <= p < 2 ^ 53 -> w_page (page_bounds (quotes_request p l)) = JSNumber.Fin p.
Proof.
  intros Hp. unfold page_bounds. cbn [w_page].
  change (req_query (quotes_request p l) "page") with (QString (decimal p)).
  cbn [ToString]. rewrite parseInt_decimal by lia.
  rewrite NumberFacts.of_Z_small by lia.
  rewrite NumberFacts.or_Fin, NumberFacts.max_one. cbn.
  replace (p =? 0) with false by (symmetry; apply Z.eqb_neq; lia).
  f_equal. lia.
Qed.

Lemma quotes_request_limit (p l : Z) :
  1 <= l < 2 ^ 53 ->
  w_limit (page_bounds (quotes_request p l)) = JSNumber.Fin (Z.min 50 l).
Proof.
  intros Hl. unfold page_bounds. cbn [w_limit].
  change (req_query (quotes_request p l) "limit") with (QString (decimal l)).
  cbn [ToString]. rewrite parseInt_decimal by lia.
  rewrite NumberFacts.of_Z_small by lia.
  rewrite NumberFacts.or_Fin, NumberFacts.max_one, NumberFacts.min_fifty. cbn.
  replace (l =? 0) with false by (symmetry; apply Z.eqb_neq; lia).
  f_equal. lia.
Qed.

Lemma skip_exact (req : request) (p l : Z) :
  w_page (page_bounds req) = JSNumber.Fin p ->
  w_limit (page_bounds req) = JSNumber.Fin l ->
  1 <= p -> 1 <= l -> (p - 1) * l < 2 ^ 53 ->
  w_skip (page_bounds req) = JSNumber.Fin ((p - 1) * l).
Proof.
  intros Hp Hl Hp1 Hl1 Hprod.
  change (w_skip (page_bounds req))
    with (JSNumber.mul (JSNumber.sub (w_page (page_bounds req)) (JSNumber.Fin 1))
            (w_limit (page_bounds req))).
  rewrite Hp, Hl.
  assert (0 <= p - 1 < 2 ^ 53) by nia.
  unfold JSNumber.sub, JSNumber.neg, JSNumber.add.
  rewrite NumberFacts.of_Z_small by lia.
  unfold JSNumber.mul. replace (p + -1) with (p - 1) by lia.
  apply NumberFacts.of_Z_small. nia.
Qed.

Lemma exec_page (r : runtime) (s : store) (b : page_window) (sk l : Z) :
  connected s = true ->
  w_skip b = JSNumber.Fin sk -> w_limit b = JSNumber.Fin l ->
  0 <= sk < 2 ^ 63 -> 0 <= l < 2 ^ 63 ->
  exec r s (page_query b)
  = inr (map (fun d => VDoc false (obj_delete "__v" d))
           (firstn (Z.to_nat l) (skipn (Z.to_nat sk) (docs s)))).
Proof.
  intros Hc Hsk Hl Hskr Hlr. unfold exec, page_query.
  cbn [q_filter q_skip q_limit q_single q_lean q_exclude lean select Mongo.limit
       Mongo.skip Quote_find filter_ok negb].
  rewrite Hc, Hsk, Hl. cbn [negb window_arg].
  replace ((0 <=? sk) && (sk <? 2 ^ 63)) with true
    by (symmetry; apply andb_true_iff; split; [apply Z.leb_le | apply Z.ltb_lt]; lia).
  replace ((0 <=? l) && (l <? 2 ^ 63)) with true
    by (symmetry; apply andb_true_iff; split; [apply Z.leb_le | apply Z.ltb_lt]; lia).
  rewrite filter_all_true by reflexivity. reflexivity.
Qed.

(** GET /api/quotes for a window computed exactly. *)
Lemma get_quotes_exact (w : world) (req : request) (p l : Z) :
  store_ok (db w) ->
  w_page (page_bounds req) = JSNumber.Fin p ->
  w_limit (page_bounds req) = JSNumber.Fin l ->
  1 <= p -> 1 <= l <= 50 -> (p - 1) * l < 2 ^ 53 ->
  fst (serve get_quotes w req) = quotes_answer w p l.
Proof.
  intros [Hc Hsafe] Hp Hl Hp1 Hl1 Hprod.
  pose proof (skip_exact req p l Hp Hl Hp1 ltac:(lia) Hprod) as Hsk.
  assert (H63 : 2 ^ 53 < 2 ^ 63) by reflexivity.
  assert (H50 : 50 < 2 ^ 63) by reflexivity.
  unfold serve, get_quotes, bind, Promise_all2, await_many, await_count.
  fold (page_query (page_bounds req)).
  rewrite (exec_page (rt w) (db w) (page_bounds req) ((p - 1) * l) l Hc Hsk Hl)
    by nia.
  rewrite (lift_count _ Hc). cbn [lift sendResponse].
  unfold sendResponse, bind, the_runtime, new_Date, ret. cbn [ticks emit log fst].
  unfold pagination. rewrite Hp, Hl.
  unfold JSNumber.ceil_div, JSNumber.gt.
  replace (l =? 0) with false by (symmetry; apply Z.eqb_neq; lia).
  unfold JSNumber.mul.
  rewrite NumberFacts.lt_of_Z_safe by (fold (count_of (db w)) in Hsafe; nia).
  unfold quotes_answer, res_json, page_slice, lean_record, ceiling.
  cbn. rewrite map_map. reflexivity.
Qed.

(** X1. GET /api/quotes?page=p&limit=l, the numbers written in
    decimal, with p >= 1, 1 <= l < 2^53 and p * m < 2^53 for
    m = min(50, l), on a store that answers: 200 with the records at
    positions (p-1)m to (p-1)m + m - 1 of the store's order, each
    without [__v], and the pagination block of page p. *)
Theorem quotes_page_answer (w : world) (p l : Z) :
  store_ok (db w) ->
  1 <= p -> 1 <= l < 2 ^ 53 -> p * Z.min 50 l < 2 ^ 53 ->
  fst (serve get_quotes w (quotes_request p l)) = quotes_answer w p (Z.min 50 l).
Proof.
  intros Hs Hp Hl Hprod.
  assert (p < 2 ^ 53) by nia.
  apply get_quotes_exact;
    [assumption | apply quotes_request_page; lia | apply quotes_request_limit; lia
    | lia | lia | nia].
Qed.

Lemma chunks_concat {A} (l : nat) (xs : list A) (n : nat) :
  (List.length xs <= n * l)%nat ->
  List.concat (map (fun k => firstn l (skipn (k * l) xs)) (seq 0 n)) = xs.
Proof.
  revert xs. induction n as [| n IH]; intros xs Hlen.
  - destruct xs; [reflexivity | cbn in Hlen; lia].
  - cbn [seq map List.concat]. rewrite <- seq_shift, map_map.
    cbn [Nat.mul skipn].
    rewrite (map_ext _ (fun k => firstn l (skipn (k * l) (skipn l xs)))).
    + rewrite IH; [apply firstn_skipn |]. rewrite length_skipn. lia.
    + intros k. rewrite skipn_skipn. do 2 f_equal. lia.
Qed.

Lemma ceiling_covers (a b : Z) : 0 < b -> a <= ceiling a b * b.
Proof.
  intros Hb. unfold ceiling.
  pose proof (Z.div_mod (- a) b ltac:(lia)) as Hdm.
  pose proof (Z.mod_pos_bound (- a) b Hb) as Hm.
  remember ((- a) / b) as q. remember ((- a) mod b) as r. nia.
Qed.

Lemma ceiling_last (a b k : Z) : 0 < b -> k < ceiling a b -> k * b < a.
Proof.
  intros Hb. unfold ceiling.
  pose proof (Z.div_mod (- a) b ltac:(lia)) as Hdm.
  pose proof (Z.mod_pos_bound (- a) b Hb) as Hm.
  remember ((- a) / b) as q. remember ((- a) mod b) as r. nia.
Qed.

Lemma records_of_quotes_answer (w : world) (p l : Z) :
  records_of (quotes_answer w p l) = map lean_record (page_slice (docs (db w)) p l).
Proof. reflexivity. Qed.

(** X2. Walking GET /api/quotes from page 1 to the last page, at a
    fixed limit, returns every record of the store once, in the
    store's order. *)
Theorem pages_cover_store (w : world) (l : Z) :
  store_ok (db w) ->
  1 <= l < 2 ^ 53 ->
  let m := Z.min 50 l in
  let pages := Z.to_nat (ceiling (count_of (db w)) m) in
  List.concat (map (fun k => records_of (fst (serve get_quotes w
                                          (quotes_request (Z.of_nat k + 1) l))))
              (seq 0 pages))
  = map lean_record (docs (db w)).
Proof.
  intros Hs Hl m pages.
  pose proof Hs as [_ Hsafe]. fold (count_of (db w)) in Hsafe.
  assert (Hm : 1 <= m <= 50) by (unfold m; lia).
  rewrite (map_ext_in _
             (fun k => map lean_record
                         (firstn (Z.to_nat m) (skipn (k * Z.to_nat m) (docs (db w)))))).
  - rewrite <- (map_map (fun k => firstn (Z.to_nat m) (skipn (k * Z.to_nat m) (docs (db w))))
                        (map lean_record)).
    rewrite <- concat_map. f_equal. apply chunks_concat.
    pose proof (ceiling_covers (count_of (db w)) m ltac:(lia)) as Hc.
    unfold pages, count_of in *. nia.
  - intros k Hk. apply in_seq in Hk.
    assert (Hkp : Z.of_nat k < ceiling (count_of (db w)) m) by (unfold pages in Hk; lia).
    pose proof (ceiling_last (count_of (db w)) m (Z.of_nat k) ltac:(lia) Hkp) as Hlast.
    rewrite (get_quotes_exact w _ (Z.of_nat k + 1) m Hs);
      [| apply quotes_request_page; nia | apply quotes_request_limit; lia
       | lia | lia | nia].
    rewrite records_of_quotes_answer. unfold page_slice. do 3 f_equal.
    replace (Z.of_nat k + 1 - 1) with (Z.of_nat k) by lia.
    rewrite Z2Nat.inj_mul, Nat2Z.id by lia. reflexivity.
Qed.

Lemma slice_nonempty {A} (xs : list A) (n l : nat) :
  (0 < l)%nat -> (firstn l (skipn n xs) <> [] <-> (n < List.length xs)%nat).
Proof.
  intros Hl. destruct l as [| l]; [lia |].
  pose proof (length_skipn n xs) as Hlen.
  destruct (skipn n xs) as [| a r]; cbn in *; split; intros H;
    try lia; try discriminate; congruence.
Qed.

(** X3. GET /api/quotes reports [hasNextPage] exactly when the request
    for the next page, at the same limit, returns at least one
    record. *)
Theorem has_next_page_iff_next_page (w : world) (p l : Z) :
  store_ok (db w) ->
  1 <= p -> 1 <= l < 2 ^ 53 -> (p + 1) * Z.min 50 l < 2 ^ 53 ->
  pagination_field (fst (serve get_quotes w (quotes_request p l))) "hasNextPage"
  = Some (VBool true)
  <-> records_of (fst (serve get_quotes w (quotes_request (p + 1) l))) <> [].
Proof.
  intros Hs Hp Hl Hprod.
  assert (Hm : 1 <= Z.min 50 l <= 50) by lia.
  rewrite (get_quotes_exact w _ p (Z.min 50 l) Hs);
    [| apply quotes_request_page; nia | apply quotes_request_limit; lia
     | lia | lia | nia].
  rewrite (get_quotes_exact w _ (p + 1) (Z.min 50 l) Hs);
    [| apply quotes_request_page; nia | apply quotes_request_limit; lia
     | lia | lia | nia].
  rewrite records_of_quotes_answer.
  change (pagination_field (quotes_answer w p (Z.min 50 l)) "hasNextPage")
    with (Some (VBool (p * Z.min 50 l <? count_of (db w)))).
  unfold page_slice. replace (p + 1 - 1) with p by lia.
  set (m := Z.min 50 l) in *.
  assert (Hslice : firstn (Z.to_nat m) (skipn (Z.to_nat (p * m)) (docs (db w))) <> []
                   <-> p * m < count_of (db w)).
  { rewrite slice_nonempty by lia. unfold count_of. nia. }
  split.
  - intros H. injection H as H. apply Z.ltb_lt in H.
    intros E. apply map_eq_nil in E. apply Hslice in H. contradiction.
  - intros H. do 2 f_equal. apply Z.ltb_lt. apply Hslice.
    intros E. apply H. rewrite E. reflexivity.
Qed.

(** X4. A page p past the last one, with p * m < 2^53 for
    m = min(50, l), is answered 200 with an empty [data] array and
    [hasNextPage] false. *)
Theorem page_past_the_end (w : world) (p l : Z) :
  store_ok (db w) ->
  1 <= p -> 1 <= l < 2 ^ 53 -> p * Z.min 50 l < 2 ^ 53 ->
  ceiling (count_of (db w)) (Z.min 50 l) < p ->
  status (fst (serve get_quotes w (quotes_request p l))) = 200
  /\ body_field (fst (serve get_quotes w (quotes_request p l))) "data" = Some (VArr [])
  /\ pagination_field (fst (serve get_quotes w (quotes_request p l))) "hasNextPage"
     = Some (VBool false).
Proof.
  intros Hs Hp Hl Hprod Hpast.
  assert (Hm : 1 <= Z.min 50 l <= 50) by lia.
  rewrite (get_quotes_exact w _ p (Z.min 50 l) Hs);
    [| apply quotes_request_page; nia | apply quotes_request_limit; lia
     | lia | lia | nia].
  set (m := Z.min 50 l) in *.
  pose proof (ceiling_covers (count_of (db w)) m ltac:(lia)) as Hc.
  assert (Hskip : skipn (Z.to_nat ((p - 1) * m)) (docs (db w)) = []).
  { apply skipn_all2. unfold count_of in *. nia. }
  split; [reflexivity |]. split.
  - unfold quotes_answer, body_field. cbn. unfold page_slice.
    rewrite Hskip, firstn_nil. reflexivity.
  - change (pagination_field (quotes_answer w p m) "hasNextPage")
      with (Some (VBool (p * m <? count_of (db w)))).
    do 2 f_equal. apply Z.ltb_ge. nia.
Qed.

(** ** The daily quote in a zone with a constant offset *)

Lemma day_of_year_by_day (off now : Z) :
  0 <= now + off ->
  day_of_year (Calendar.fixed_zone off) now
  = Calendar.Day (now + off)
    - Calendar.DayFromYear (Calendar.YearFromDay (Calendar.Day (now + off))) + 1.
Proof.
  intros H. rewrite day_of_year_fixed_zone by exact H. reflexivity.
Qed.

Lemma day_of_year_range (off now : Z) :
  0 <= now + off -> 1 <= day_of_year (Calendar.fixed_zone off) now <= 366.
Proof.
  intros H. rewrite day_of_year_fixed_zone by exact H.
  pose proof (CalendarFacts.ordinal_day_range (Calendar.fixed_zone off) now) as Hr.
  destruct (CalendarFacts.DaysInYear_cases
              (Calendar.getFullYear (Calendar.fixed_zone off) now)); lia.
Qed.

(** GET /api/quote/daily in a fixed zone, on a store with records. *)
Lemma daily_fixed_zone (w : world) (req : request) (off : Z) :
  zone (rt w) = Calendar.fixed_zone off ->
  store_ok (db w) -> 0 < count_of (db w) -> 0 <= clock w 0 + off ->
  let day := day_of_year (Calendar.fixed_zone off) (clock w 0) in
  exists d,
    nth_error (docs (db w)) (Z.to_nat (day mod count_of (db w))) = Some d
    /\ body_field (fst (serve get_daily w req)) "data" = Some (lean_record d)
    /\ body_field (fst (serve get_daily w req)) "dayOfYear"
       = Some (VNum (JSNumber.Fin day))
    /\ status (fst (serve get_daily w req)) = 200.
Proof.
  intros Hz Hs Hpos Ht day.
  pose proof (day_of_year_range off (clock w 0) Ht) as Hr.
  destruct (daily_quote_response w req Hs) as [_ H].
  rewrite Hz in H. destruct (H Hpos ltac:(fold day; lia)) as (d & Hd & E).
  exists d. rewrite E. repeat split. exact Hd.
Qed.

(** X5. In a zone with a constant UTC offset, two requests to
    GET /api/quote/daily on the same local calendar day return the same
    record and the same [dayOfYear], whatever the time of day. *)
Theorem daily_same_day_same_quote (w1 w2 : world) (req1 req2 : request) (off : Z) :
  zone (rt w1) = Calendar.fixed_zone off ->
  zone (rt w2) = Calendar.fixed_zone off ->
  db w2 = db w1 ->
  store_ok (db w1) ->
  0 <= clock w1 0 + off -> 0 <= clock w2 0 + off ->
  Calendar.local_day (Calendar.fixed_zone off) (clock w1 0)
  = Calendar.local_day (Calendar.fixed_zone off) (clock w2 0) ->
  status (fst (serve get_daily w1 req1)) = status (fst (serve get_daily w2 req2))
  /\ body_field (fst (serve get_daily w1 req1)) "data"
     = body_field (fst (serve get_daily w2 req2)) "data"
  /\ body_field (fst (serve get_daily w1 req1)) "dayOfYear"
     = body_field (fst (serve get_daily w2 req2)) "dayOfYear".
Proof.
  intros Hz1 Hz2 Hdb Hs Ht1 Ht2 Hday.
  assert (Hs2 : store_ok (db w2)) by (rewrite Hdb; exact Hs).
  assert (Hsame : day_of_year (Calendar.fixed_zone off) (clock w1 0)
                  = day_of_year (Calendar.fixed_zone off) (clock w2 0)).
  { rewrite !day_of_year_by_day by assumption.
    unfold Calendar.local_day, Calendar.LocalTime, Calendar.fixed_zone in Hday.
    cbn in Hday. rewrite Hday. reflexivity. }
  destruct (Z.eq_dec (count_of (db w1)) 0) as [H0 | Hn0].
  - destruct (daily_quote_response w1 req1 Hs) as [E1 _].
    destruct (daily_quote_response w2 req2 Hs2) as [E2 _].
    rewrite (E1 H0), (E2 ltac:(rewrite Hdb; exact H0)). repeat split.
  - assert (Hpos : 0 < count_of (db w1)) by (unfold count_of in *; lia).
    destruct (daily_fixed_zone w1 req1 off Hz1 Hs Hpos Ht1) as (d1 & Hd1 & A1 & B1 & C1).
    destruct (daily_fixed_zone w2 req2 off Hz2 Hs2 ltac:(rewrite Hdb; exact Hpos) Ht2)
      as (d2 & Hd2 & A2 & B2 & C2).
    rewrite Hdb, <- Hsame in Hd2. rewrite Hd1 in Hd2. injection Hd2 as <-.
    rewrite A1, A2, B1, B2, C1, C2, Hsame. repeat split.
Qed.

(** X6. In a zone with a constant UTC offset [dayOfYear] is between 1
    and 366, so a store of more than 366 records only ever serves, as
    daily quote, the records at positions 1 to 366: never the first
    record, never one further down. *)
Theorem daily_reaches_only_366 (w : world) (req : request) (off : Z) :
  zone (rt w) = Calendar.fixed_zone off ->
  store_ok (db w) -> 366 < count_of (db w) -> 0 <= clock w 0 + off ->
  exists (i : Z) (d : document),
    1 <= i <= 366
    /\ nth_error (docs (db w)) (Z.to_nat i) = Some d
    /\ body_field (fst (serve get_daily w req)) "data" = Some (lean_record d)
    /\ body_field (fst (serve get_daily w req)) "dayOfYear" = Some (VNum (JSNumber.Fin i)).
Proof.
  intros Hz Hs Hbig Ht.
  pose proof (day_of_year_range off (clock w 0) Ht) as Hr.
  destruct (daily_fixed_zone w req off Hz Hs ltac:(lia) Ht) as (d & Hd & A & B & _).
  rewrite Z.mod_small in Hd by lia.
  eexists _, d. repeat split; eauto; lia.
Qed.

Lemma DayFromYear_mono (y y' : Z) :
  y <= y' -> Calendar.DayFromYear y <= Calendar.DayFromYear y'.
Proof.
  intros H. unfold Calendar.DayFromYear. Z.div_mod_to_equations. lia.
Qed.

(** X7. In a zone with a constant UTC offset, 24 hours later
    [dayOfYear] is one more, except across the new year, where it
    starts again at 1. *)
Theorem day_of_year_next_day (off now : Z) :
  0 <= now + off ->
  let tz := Calendar.fixed_zone off in
  day_of_year tz (now + Calendar.msPerDay)
  = if Calendar.getFullYear tz (now + Calendar.msPerDay) =? Calendar.getFullYear tz now
    then day_of_year tz now + 1
    else 1.
Proof.
  intros H tz. unfold tz.
  assert (Hms : 0 < Calendar.msPerDay) by reflexivity.
  rewrite !day_of_year_by_day by lia.
  unfold Calendar.getFullYear, Calendar.YearFromTime, Calendar.LocalTime,
    Calendar.fixed_zone; cbn [Calendar.offset_at_utc].
  replace (now + Calendar.msPerDay + off) with (now + off + 1 * Calendar.msPerDay) by ring.
  unfold Calendar.Day at 1 2 3. rewrite Z.div_add by lia.
  fold (Calendar.Day (now + off)). set (d := Calendar.Day (now + off)).
  pose proof (CalendarFacts.YearFromDay_spec d) as [Ha Hb].
  pose proof (CalendarFacts.YearFromDay_spec (d + 1)) as [Hc Hd].
  set (y := Calendar.YearFromDay d) in *. set (y' := Calendar.YearFromDay (d + 1)) in *.
  destruct (Z.eqb_spec y' y) as [-> | Hne]; [lia |].
  destruct (Z.lt_ge_cases y' y) as [Hlt | Hge].
  - pose proof (DayFromYear_mono (y' + 1) y ltac:(lia)). lia.
  - pose proof (DayFromYear_mono (y + 1) y' ltac:(lia)). lia.
Qed.

(** ** Statuses and envelopes *)

Lemma exec_no_cast_error (r : runtime) (s : store) (q : Mongo.query) :
  filter_ok r (q_filter q) = true -> exec r s q <> inl CastError.
Proof.
  intros H. unfold exec. rewrite H. cbn [negb].
  destruct (negb (connected s)); [discriminate |].
  destruct (window_arg (q_skip q)); [| discriminate].
  destruct (window_arg (q_limit q)); discriminate.
Qed.

Lemma failed_status (r : runtime) (e : store_error) :
  e <> CastError ->
  status (error_handler r e) = 500
  /\ body (error_handler r e)
     = VObj [("success", VBool false);
             ("error", VStr (if production r then str "Internal server error"
                             else error_message r e))].
Proof. destruct e; intros H; try contradiction; split; reflexivity. Qed.

Lemma count_throws (s : store) (e : store_error) :
  lift (countDocuments s) = Throw e -> e = Disconnected /\ connected s = false.
Proof.
  unfold countDocuments. destruct (connected s); cbn; [discriminate |].
  intros H. injection H as <-. split; reflexivity.
Qed.

Lemma get_random_cases (w : world) (req : request) :
  let r := fst (serve get_random w req) in
  (exists e, e <> CastError /\ r = error_handler (rt w) e)
  \/ r = error_response 404 "No quotes found in database"
  \/ exists v t,
       r = res_json 200 [("success", VBool true); ("timestamp", VStr t); ("data", v)].
Proof.
  unfold serve, get_random, bind, await_count, await_one, await_many, Math_random,
    sendResponse, the_runtime, new_Date, ret, bind.
  destruct (lift (countDocuments (db w))) as [count | e] eqn:Ec.
  - destruct (count =? 0); [right; left; reflexivity |].
    match goal with |- context [exec ?r ?s ?q] => destruct (exec r s q) as [e | l] eqn:Ex end.
    + left. exists e. split; [| reflexivity].
      intros ->. revert Ex. apply exec_no_cast_error. reflexivity.
    + right; right. cbn. eauto.
  - left. exists e. split; [| reflexivity].
    destruct (count_throws _ _ Ec) as [-> _]. discriminate.
Qed.

Lemma get_daily_cases (w : world) (req : request) :
  let r := fst (serve get_daily w req) in
  (exists e, e <> CastError /\ r = error_handler (rt w) e)
  \/ r = error_response 404 "No quotes found in database"
  \/ exists v t n,
       r = res_json 200 [("success", VBool true); ("timestamp", VStr t); ("data", v);
                         ("dayOfYear", VNum (JSNumber.Fin n))].
Proof.
  unfold serve, get_daily, bind, await_count, await_one, await_many,
    sendResponse, the_runtime, new_Date, ret, bind.
  destruct (lift (countDocuments (db w))) as [count | e] eqn:Ec.
  - destruct (count =? 0); [right; left; reflexivity |].
    match goal with |- context [exec ?r ?s ?q] => destruct (exec r s q) as [e | l] eqn:Ex end.
    + left. exists e. split; [| reflexivity].
      intros ->. revert Ex. apply exec_no_cast_error. reflexivity.
    + right; right. cbn. eauto.
  - left. exists e. split; [| reflexivity].
    destruct (count_throws _ _ Ec) as [-> _]. discriminate.
Qed.

Lemma get_by_id_cases (w : world) (req : request) :
  let r := fst (serve get_by_id w req) in
  (exists e, e <> CastError /\ r = error_handler (rt w) e)
  \/ r = error_response 400 "Invalid quote ID format"
  \/ r = error_response 404 "Quote not found"
  \/ exists v t,
       r = res_json 200 [("success", VBool true); ("timestamp", VStr t); ("data", v)].
Proof.
  unfold serve, get_by_id, bind, await_one, await_many,
    sendResponse, the_runtime, new_Date, ret, bind.
  destruct (req_param req "id") as [id |]; [| right; left; reflexivity].
  destruct (ObjectId_isValid (rt w) id) eqn:Ev; cbn [negb];
    [| right; left; reflexivity].
  match goal with |- context [exec ?r ?s ?q] => destruct (exec r s q) as [e | l] eqn:Ex end.
  - left. exists e. split; [| reflexivity].
    intros ->. revert Ex. apply exec_no_cast_error. exact Ev.
  - cbn [lift]. destruct l as [| v l]; [right; right; left; reflexivity |].
    destruct v; try (right; right; right; cbn; eauto; fail).
    right; right; left; reflexivity.
Qed.

Lemma get_search_cases (w : world) (req : request) :
  let r := fst (serve get_search w req) in
  (exists e, e <> CastError /\ r = error_handler (rt w) e)
  \/ r = error_response 400 "Source query parameter is required"
  \/ exists quotes t,
       r = res_json 200 [("success", VBool true); ("timestamp", VStr t);
                         ("count", VNum (JSNumber.Fin (Z.of_nat (List.length quotes))));
                         ("data", VArr quotes)].
Proof.
  unfold serve, get_search, bind, await_many,
    sendResponse, the_runtime, new_Date, ret, bind.
  destruct (negb (q_truthy (req_query req "source"))
            || negb (typeof_is_string (req_query req "source")));
    [right; left; reflexivity |].
  match goal with |- context [exec ?r ?s ?q] => destruct (exec r s q) as [e | l] eqn:Ex end.
  - left. exists e. split; [| reflexivity].
    intros ->. revert Ex. apply exec_no_cast_error. reflexivity.
  - right; right. cbn. eauto.
Qed.

Lemma get_quotes_cases (w : world) (req : request) :
  let r := fst (serve get_quotes w req) in
  (exists e, e <> CastError /\ r = error_handler (rt w) e)
  \/ exists quotes t pg,
       r = res_json 200 [("success", VBool true); ("timestamp", VStr t);
                         ("data", VArr quotes); ("pagination", VObj pg)].
Proof.
  unfold serve, get_quotes, bind, Promise_all2, await_many, await_count,
    sendResponse, the_runtime, new_Date, ret, bind.
  match goal with |- context [exec ?r ?s ?q] => destruct (exec r s q) as [e | l] eqn:Ex end.
  - left. exists e. split.
    + intros ->. revert Ex. apply exec_no_cast_error. reflexivity.
    + destruct (lift (countDocuments (db w))); reflexivity.
  - destruct (lift (countDocuments (db w))) as [count | e] eqn:Ec.
    + right. cbn. eauto.
    + left. exists e. split; [| reflexivity].
      destruct (count_throws _ _ Ec) as [-> _]. discriminate.
Qed.

Import Envelope.

(** X8. The statuses each read handler answers with, once a request
    has reached it, what it throws being a store error passed to the
    global error handler: the search handler never answers 404, the
    listing handler never answers 400 or 404, and only the handlers of
    the lookup by id and of the search answer 400. *)
Theorem endpoint_statuses (w : world) (req : request) :
  In (status (fst (serve get_random w req))) [200; 404; 500]
  /\ In (status (fst (serve get_daily w req))) [200; 404; 500]
  /\ In (status (fst (serve get_by_id w req))) [200; 400; 404; 500]
  /\ In (status (fst (serve get_search w req))) [200; 400; 500]
  /\ In (status (fst (serve get_quotes w req))) [200; 500].
Proof.
  repeat split.
  - destruct (get_random_cases w req) as [(e & He & ->) | [-> | (v & t & ->)]];
      [rewrite (proj1 (failed_status _ _ He)) | |]; cbn; auto.
  - destruct (get_daily_cases w req) as [(e & He & ->) | [-> | (v & t & n & ->)]];
      [rewrite (proj1 (failed_status _ _ He)) | |]; cbn; auto.
  - destruct (get_by_id_cases w req) as [(e & He & ->) | [-> | [-> | (v & t & ->)]]];
      [rewrite (proj1 (failed_status _ _ He)) | | |]; cbn; auto.
  - destruct (get_search_cases w req) as [(e & He & ->) | [-> | (v & t & ->)]];
      [rewrite (proj1 (failed_status _ _ He)) | |]; cbn; auto.
  - destruct (get_quotes_cases w req) as [(e & He & ->) | (v & t & pg & ->)];
      [rewrite (proj1 (failed_status _ _ He)) |]; cbn; auto.
Qed.

Lemma envelope_of_error_handler (r : runtime) (e : store_error) :
  envelope_ok (error_handler r e) = true.
Proof. destruct e; reflexivity. Qed.

(** X9. Every answer of a read endpoint is an envelope: [success] is
    true together with a [timestamp] exactly on status 200, and false
    together with an [error] message on every other status. *)
Theorem read_endpoints_envelope (w : world) (req : request) :
  forallb (fun h => envelope_ok (fst (serve h w req))) read_endpoints = true.
Proof.
  cbn [forallb read_endpoints]. rewrite !andb_true_r.
  repeat (apply andb_true_iff; split).
  - destruct (get_random_cases w req) as [(e & He & ->) | [-> | (v & t & ->)]];
      [apply envelope_of_error_handler | reflexivity..].
  - destruct (get_daily_cases w req) as [(e & He & ->) | [-> | (v & t & n & ->)]];
      [apply envelope_of_error_handler | reflexivity..].
  - destruct (get_by_id_cases w req) as [(e & He & ->) | [-> | [-> | (v & t & ->)]]];
      [apply envelope_of_error_handler | reflexivity..].
  - destruct (get_search_cases w req) as [(e & He & ->) | [-> | (v & t & ->)]];
      [apply envelope_of_error_handler | reflexivity..].
  - destruct (get_quotes_cases w req) as [(e & He & ->) | (v & t & pg & ->)];
      [apply envelope_of_error_handler | reflexivity].
Qed.

Lemma exec_down (r : runtime) (s : store) (q : Mongo.query) :
  connected s = false -> filter_ok r (q_filter q) = true ->
  exec r s q = inl Disconnected.
Proof. intros Hc Hf. unfold exec. rewrite Hf, Hc. reflexivity. Qed.

(** X10. Without a store connection, every request that reaches the
    store is answered 500, and in production the body carries
    "Internal server error" in place of the error's own message. *)
Theorem store_down_answers_500 (w : world) (req : request) :
  connected (db w) = false ->
  fst (serve get_random w req) = store_down (rt w)
  /\ fst (serve get_daily w req) = store_down (rt w)
  /\ fst (serve get_quotes w req) = store_down (rt w)
  /\ (forall s, req_query req "source" = QString s -> s <> [] ->
        fst (serve get_search w req) = store_down (rt w))
  /\ (forall id, req_param req "id" = Some id -> ObjectId_isValid (rt w) id = true ->
        fst (serve get_by_id w req) = store_down (rt w)).
Proof.
  intros Hc.
  assert (Hcount : lift (countDocuments (db w)) = Throw Disconnected)
    by (unfold countDocuments; rewrite Hc; reflexivity).
  refine (conj _ (conj _ (conj _ (conj _ _)))).
  - unfold serve, get_random, bind, await_count. rewrite Hcount. reflexivity.
  - unfold serve, get_daily, bind, await_count. rewrite Hcount. reflexivity.
  - unfold serve, get_quotes, bind, Promise_all2, await_many, await_count.
    rewrite Hcount, exec_down by (exact Hc || reflexivity). reflexivity.
  - intros s Hq Hs. rewrite (get_search_runs w req s Hq Hs).
    rewrite exec_down by (exact Hc || reflexivity). reflexivity.
  - intros id Hid Hv.
    unfold serve, get_by_id, bind, the_runtime, await_one, await_many, bind.
    rewrite Hid, Hv. cbn [negb].
    rewrite exec_down by (exact Hc || exact Hv). reflexivity.
Qed.

(** ** More on the search *)

Lemma starts_with_folded (f : N -> N) (needle hay : jsstring) :
  starts_with (fun x y => (f x =? f y)%N) needle hay
  = starts_with N.eqb (map f needle) (map f hay).
Proof.
  revert hay. induction needle as [| x n IH]; intros [| y h]; cbn; try reflexivity.
  rewrite IH. reflexivity.
Qed.

Lemma occurs_in_folded (f : N -> N) (needle hay : jsstring) :
  occurs_in (fun x y => (f x =? f y)%N) needle hay
  = occurs_in N.eqb (map f needle) (map f hay).
Proof.
  induction hay as [| y h IH]; cbn [occurs_in map].
  - rewrite starts_with_folded. reflexivity.
  - rewrite starts_with_folded, IH. reflexivity.
Qed.

Lemma records_by_source_folded (r : runtime) (s : store) (s1 s2 : jsstring) :
  map (fold_case r) s1 = map (fold_case r) s2 ->
  records_by_source r s s1 = records_by_source r s s2.
Proof.
  intros H. unfold records_by_source. apply filter_ext. intros d.
  destruct (obj_get "source" d) as [[] |]; try reflexivity.
  unfold contains_ci.
  rewrite (occurs_in_folded (fold_case r) s1), (occurs_in_folded (fold_case r) s2), H.
  reflexivity.
Qed.

(** X11. The search ignores letter case in the query as well: two
    source texts with the same case folding get the same answer. *)
Theorem search_ignores_query_case (w : world) (s1 s2 : jsstring) :
  map (fold_case (rt w)) s1 = map (fold_case (rt w)) s2 ->
  fst (serve get_search w (with_source (QString s1)))
  = fst (serve get_search w (with_source (QString s2))).
Proof.
  intros H.
  destruct s1 as [| c1 r1]; destruct s2 as [| c2 r2]; try discriminate; [reflexivity |].
  rewrite (get_search_runs w (with_source (QString (c1 :: r1))) (c1 :: r1)
             eq_refl ltac:(discriminate)).
  rewrite (get_search_runs w (with_source (QString (c2 :: r2))) (c2 :: r2)
             eq_refl ltac:(discriminate)).
  destruct (connected (db w)) eqn:Hc.
  - rewrite !exec_search by exact Hc.
    rewrite (records_by_source_folded _ _ _ _ H). reflexivity.
  - rewrite !exec_down by (exact Hc || reflexivity). reflexivity.
Qed.

Lemma escaped_length (s : jsstring) :
  (List.length s <= List.length (escaped s) <= 2 * List.length s)%nat.
Proof.
  induction s as [| c r IH]; cbn [escaped flat_map]; [cbn; lia |].
  fold (escaped r). rewrite length_app.
  destruct (mem c metacharacters); cbn [List.length]; lia.
Qed.

Lemma escaped_plain (s : jsstring) :
  forallb (fun c => negb (mem c metacharacters)) s = true -> escaped s = s.
Proof.
  induction s as [| c r IH]; [reflexivity |]. cbn [forallb escaped flat_map].
  intros H. apply andb_true_iff in H as [Hc Hr]. fold (escaped r).
  apply negb_true_iff in Hc. rewrite Hc, (IH Hr). reflexivity.
Qed.

(** X12. The sanitized source is at least as long as the source and at
    most twice as long, is the source itself when that holds none of
    the special characters, is computed piece by piece on a
    concatenation, and is different for different sources. *)
Theorem sanitized_source_facts (s t : jsstring) :
  (List.length s <= List.length (sanitizedSource s) <= 2 * List.length s)%nat
  /\ (forallb (fun c => negb (mem c metacharacters)) s = true -> sanitizedSource s = s)
  /\ sanitizedSource (s ++ t) = sanitizedSource s ++ sanitizedSource t
  /\ (sanitizedSource s = sanitizedSource t -> s = t).
Proof.
  unfold sanitizedSource, replace_class_g. rewrite !replace_from_escaped.
  refine (conj (escaped_length s) (conj (escaped_plain s) (conj _ _))).
  - unfold escaped. apply flat_map_app.
  - intros H. pose proof (literal_of_escaped s) as Hs.
    rewrite H, literal_of_escaped in Hs. injection Hs as <-. reflexivity.
Qed.

(** ** The schema's transform *)

Lemma obj_get_set_same (k : string) (v : value) (o : object) :
  obj_get k (obj_set k v o) = Some v.
Proof.
  induction o as [| [k' v'] o IH]; cbn [obj_set obj_get].
  - rewrite String.eqb_refl. reflexivity.
  - destruct (String.eqb k k') eqn:E; cbn [obj_get]; rewrite ?String.eqb_refl, ?E;
      [reflexivity | exact IH].
Qed.

Lemma obj_get_set_other (k k' : string) (v : value) (o : object) :
  k <> k' -> obj_get k (obj_set k' v o) = obj_get k o.
Proof.
  intros Hne. induction o as [| [k0 v0] o IH]; cbn [obj_set obj_get].
  - destruct (String.eqb_spec k k'); [contradiction | reflexivity].
  - destruct (String.eqb_spec k' k0) as [-> | Hk]; cbn [obj_get].
    + destruct (String.eqb_spec k k0); [contradiction | reflexivity].
    + destruct (String.eqb k k0); [reflexivity | exact IH].
Qed.

Lemma obj_get_delete_same (k : string) (o : object) : obj_get k (obj_delete k o) = None.
Proof.
  pose proof (obj_delete_has k o) as H. unfold obj_has in H.
  destruct (obj_get k (obj_delete k o)); [discriminate | reflexivity].
Qed.

Lemma obj_get_delete_other (k k' : string) (o : object) :
  k <> k' -> obj_get k (obj_delete k' o) = obj_get k o.
Proof.
  intros Hne. induction o as [| [k0 v0] o IH]; [reflexivity |].
  cbn [obj_delete filter fst obj_get].
  destruct (String.eqb_spec k' k0) as [-> | Hk]; cbn [negb obj_get].
  - destruct (String.eqb_spec k k0); [contradiction | exact IH].
  - destruct (String.eqb k k0); [reflexivity | exact IH].
Qed.

Lemma toJSON_transform_keys_aux (ret : object) :
  obj_get "_id" (toJSON_transform ret) = None
  /\ obj_get "__v" (toJSON_transform ret) = None.
Proof.
  unfold toJSON_transform. split.
  - rewrite obj_get_delete_other by discriminate. apply obj_get_delete_same.
  - apply obj_get_delete_same.
Qed.

(** X13. The schema's [toJSON] transform, on any object: the result
    has no [_id] and no [__v], its [id] holds what [_id] held
    ([undefined] when there was none), and every other property keeps
    its value. *)
Theorem toJSON_transform_keys (ret : object) :
  obj_get "_id" (toJSON_transform ret) = None
  /\ obj_get "__v" (toJSON_transform ret) = None
  /\ obj_get "id" (toJSON_transform ret)
     = Some (match obj_get "_id" ret with Some v => v | None => VUndefined end)
  /\ forall k, k <> "id" -> k <> "_id" -> k <> "__v" ->
               obj_get k (toJSON_transform ret) = obj_get k ret.
Proof.
  unfold toJSON_transform. repeat split.
  - rewrite obj_get_delete_other by discriminate. apply obj_get_delete_same.
  - apply obj_get_delete_same.
  - rewrite !obj_get_delete_other by discriminate. apply obj_get_set_same.
  - intros k H1 H2 H3.
    rewrite !obj_get_delete_other, obj_get_set_other by assumption. reflexivity.
Qed.

Lemma obj_get_defined (k : string) (v : value) (o : object) :
  obj_get k o = Some v -> v <> VUndefined ->
  obj_get k (filter (fun kv => match snd kv with VUndefined => false | _ => true end) o)
  = Some v.
Proof.
  intros Hget Hv. induction o as [| [k' v'] o IH]; [discriminate |].
  cbn [obj_get] in Hget. cbn [filter snd].
  destruct (String.eqb k k') eqn:E.
  - injection Hget as ->. destruct v; try contradiction; cbn [obj_get]; rewrite E; reflexivity.
  - destruct v'; cbn [obj_get]; rewrite ?E; exact (IH Hget).
Qed.

Lemma obj_get_filter_none (k : string) (p : string * value -> bool) (o : object) :
  obj_get k o = None -> obj_get k (filter p o) = None.
Proof.
  induction o as [| [k' v'] o IH]; [reflexivity |].
  cbn [obj_get filter]. destruct (String.eqb k k') eqn:E; [discriminate |].
  intros H. destruct (p (k', v')); [cbn [obj_get]; rewrite E |]; exact (IH H).
Qed.

(** X14. For every stored record with an [_id] and without an [id]
    property: returned lean, as the endpoints do, it keeps [_id] and
    gets no [id]; serialized as a hydrated document it would carry the
    identifier under [id] and no [_id].  Neither carries [__v]. *)
Theorem record_shapes (d : document) (v : value) :
  obj_get "_id" d = Some v -> v <> VUndefined -> obj_has "id" d = false ->
  raw_shape (lean_record d) = true
  /\ public_shape (to_json (VDoc true d)) = true
  /\ body_field {| status := 200; body := to_json (VDoc true d) |} "id" = Some v
  /\ body_field {| status := 200; body := lean_record d |} "_id" = Some v.
Proof.
  intros Hid Hv Hno.
  set (defined := fun kv : string * value =>
                    match snd kv with VUndefined => false | _ => true end).
  assert (Hlean : obj_get "_id" (filter defined (obj_delete "__v" d)) = Some v).
  { apply obj_get_defined; [| exact Hv].
    rewrite obj_get_delete_other by discriminate. exact Hid. }
  assert (Hhyd : obj_get "id" (filter defined (toJSON_transform d)) = Some v).
  { apply obj_get_defined; [| exact Hv].
    unfold toJSON_transform.
    rewrite !obj_get_delete_other by discriminate.
    rewrite obj_get_set_same, Hid. reflexivity. }
  destruct (toJSON_transform_keys_aux d) as [Hraw Hver].
  pose proof (obj_get_filter_none "_id" defined _ Hraw) as Hraw'.
  pose proof (obj_get_filter_none "__v" defined _ Hver) as Hver'.
  destruct (lean_record_keys d) as [Hv0 Hid0].
  refine (conj _ (conj _ (conj Hhyd Hlean))).
  - unfold raw_shape. rewrite Hv0, (Hid0 Hno).
    unfold lean_record, has_key, obj_has; cbn [to_json]. fold defined.
    rewrite Hlean. reflexivity.
  - unfold public_shape, has_key, obj_has; cbn [to_json]. fold defined.
    rewrite Hhyd, Hraw', Hver'. reflexivity.
Qed.

(** ** Every record can be drawn *)

Import Draw.

Lemma draw_for_ok (i count : Z) :
  0 <= i < count -> count <= 2 ^ 26 ->
  JSNumber.unit_double_ok (draw_for i count)
  /\ JSNumber.floor_mul (draw_for i count) count = i.
Proof.
  intros Hi Hc.
  assert (H26 : 2 ^ 26 = 67108864) by reflexivity.
  assert (H53 : 2 ^ 53 = 9007199254740992) by reflexivity.
  set (m := ceiling (i * 2 ^ 26) count).
  pose proof (ceiling_covers (i * 2 ^ 26) count ltac:(lia)) as Hlo. fold m in Hlo.
  assert (Hhi : (m - 1) * count < i * 2 ^ 26).
  { apply ceiling_last; [lia | fold m; lia]. }
  rewrite H26 in *.
  assert (Hm0 : 0 <= m) by nia.
  assert (Hm1 : m < 67108864) by nia.
  unfold JSNumber.unit_double_ok, JSNumber.floor_mul, draw_for.
  cbn [JSNumber.mant JSNumber.expo]. fold m. rewrite H26, H53.
  split; [lia |].
  rewrite Rounding.round53_small by (rewrite H53; nia).
  symmetry. apply Z.div_unique with (m * count - i * 67108864); nia.
Qed.

Lemma get_random_at (w : world) (req : request) :
  store_ok (db w) -> JSNumber.unit_double_ok (random w) -> 0 < count_of (db w) ->
  exists d,
    nth_error (docs (db w)) (Z.to_nat (JSNumber.floor_mul (random w) (count_of (db w))))
    = Some d
    /\ body_field (fst (serve get_random w req)) "data" = Some (lean_record d).
Proof.
  intros [Hc Hsafe] Hr Hpos.
  pose proof (Rounding.floor_mul_range (random w) _ Hr Hpos) as Hoff.
  set (offset := JSNumber.floor_mul (random w) (count_of (db w))) in *.
  destruct (nth_in_range (docs (db w)) offset) as [d Hd];
    [unfold count_of in Hoff; lia |].
  exists d. split; [exact Hd |].
  unfold serve, get_random, bind, await_count, await_one, await_many.
  rewrite (lift_count _ Hc).
  replace (count_of (db w) =? 0) with false by (symmetry; apply Z.eqb_neq; lia).
  unfold Math_random, bind. fold offset.
  assert (H63 : 2 ^ 53 < 2 ^ 63) by reflexivity.
  rewrite (exec_findOne_at (rt w) (db w) offset d Hc);
    [| unfold count_of in *; lia | exact Hd].
  reflexivity.
Qed.

(** X15. In a store of at most 2^26 records every record can be the
    answer of GET /api/quote/random: for each position there is a
    value of [Math.random()] that selects it. *)
Theorem every_record_can_be_drawn (w : world) (req : request) (i : nat) (d : document) :
  store_ok (db w) -> count_of (db w) <= 2 ^ 26 ->
  nth_error (docs (db w)) i = Some d ->
  let r := draw_for (Z.of_nat i) (count_of (db w)) in
  JSNumber.unit_double_ok r
  /\ body_field (fst (serve get_random (with_random w r) req)) "data"
     = Some (lean_record d).
Proof.
  intros Hs Hsmall Hd r.
  assert (Hi : 0 <= Z.of_nat i < count_of (db w)).
  { unfold count_of. pose proof (proj1 (nth_error_Some (docs (db w)) i)) as H.
    rewrite Hd in H. specialize (H ltac:(discriminate)). lia. }
  destruct (draw_for_ok _ _ Hi Hsmall) as [Hok Hfloor]. fold r in Hok, Hfloor.
  split; [exact Hok |].
  destruct (get_random_at (with_random w r) req Hs Hok ltac:(cbn; lia)) as (d' & Hd' & E).
  cbn [with_random db random] in Hd'. rewrite Hfloor, Nat2Z.id, Hd in Hd'.
  injection Hd' as <-. exact E.
Qed.

(** ** Configuration *)

Lemma split_nonempty (sep : N) (s : jsstring) : Server.split sep s <> [].
Proof.
  destruct s as [| c r]; cbn; [discriminate |].
  destruct (c =? sep)%N; [discriminate |].
  destruct (Server.split sep r); discriminate.
Qed.

Lemma join_split (sep : N) (s : jsstring) : Server.join sep (Server.split sep s) = s.
Proof.
  induction s as [| c r IH]; [reflexivity |]. cbn [Server.split].
  pose proof (split_nonempty sep r) as Hne.
  destruct (N.eqb_spec c sep) as [-> | Hc].
  - cbn [Server.join]. destruct (Server.split sep r) as [| p ps]; [contradiction |].
    cbn [app]. rewrite IH. reflexivity.
  - destruct (Server.split sep r) as [| p ps]; [contradiction |].
    cbn [Server.join] in *. destruct ps; cbn [app]; rewrite <- IH; reflexivity.
Qed.

Lemma split_pieces (sep : N) (s : jsstring) :
  Forall (fun p => mem sep p = false) (Server.split sep s).
Proof.
  induction s as [| c r IH]; cbn [Server.split]; [repeat constructor |].
  pose proof (split_nonempty sep r) as Hne.
  destruct (N.eqb_spec c sep) as [-> | Hc].
  - constructor; [reflexivity | exact IH].
  - destruct (Server.split sep r) as [| p ps]; [contradiction |].
    inversion IH as [| ? ? Hp Hps]; subst. constructor; [| exact Hps].
    unfold mem in *. cbn [existsb]. rewrite Hp, orb_false_r.
    apply N.eqb_neq. congruence.
Qed.

Lemma split_count (sep : N) (s : jsstring) :
  List.length (Server.split sep s) = S (count_occ N.eq_dec s sep).
Proof.
  induction s as [| c r IH]; [reflexivity |]. cbn [Server.split count_occ].
  pose proof (split_nonempty sep r) as Hne.
  destruct (N.eqb_spec c sep) as [-> | Hc].
  - destruct (N.eq_dec sep sep); [| contradiction]. cbn [List.length]. rewrite IH. reflexivity.
  - destruct (N.eq_dec c sep); [contradiction |].
    destruct (Server.split sep r) as [| p ps]; [contradiction |].
    cbn [List.length] in *. exact IH.
Qed.

(** X16. [corsOptions.origin]: every origin is allowed exactly when
    ALLOWED_ORIGINS is unset or empty; otherwise the allowed origins
    are the pieces between its commas, taken as they are (joined by
    commas they give the variable back), one more than it has commas,
    none holding a comma. *)
Theorem cors_origin_pieces (v : option jsstring) :
  (Server.cors_origin v = Server.AnyOrigin <-> v = None \/ v = Some [])
  /\ forall l, Server.cors_origin v = Server.Origins l ->
       exists s, v = Some s
         /\ Server.join Server.comma l = s
         /\ List.length l = S (count_occ N.eq_dec s Server.comma)
         /\ Forall (fun p => mem Server.comma p = false) l.
Proof.
  split.
  - destruct v as [[| c r] |]; cbn; split; intros H; auto; try discriminate.
    + destruct H; discriminate.
  - intros l H. unfold Server.cors_origin, Server.env_truthy in H.
    destruct v as [[| c r] |]; try discriminate.
    injection H as <-. exists (c :: r).
    split; [reflexivity |].
    split; [exact (join_split Server.comma (c :: r)) |].
    split; [exact (split_count Server.comma (c :: r))
           | exact (split_pieces Server.comma (c :: r))].
Qed.

(** ** The seeding script *)

Ltac seed_cases c :=
  destruct c as [connect_ok file_exists file_json existing answer lower
                 delete_ok inserted indexes_ok close_ok];
  unfold Seed.seedDatabase, Seed.insert_and_index, Seed.finally, Seed.caught,
    Seed.declined, Seed.completes;
  cbn [Seed.connect_ok Seed.file_exists Seed.file_json Seed.existing Seed.answer
       Seed.toLowerCase Seed.delete_ok Seed.inserted Seed.indexes_ok Seed.close_ok];
  destruct connect_ok; cbn [negb andb];
  [destruct file_exists; cbn [negb andb];
   [destruct file_json as [data |];
    [destruct existing as [n |];
     [destruct (0 <? n) eqn:Hn;
      [destruct (JSString.eqb (lower answer) (str "y")) eqn:Hy; cbn [negb andb];
       [destruct delete_ok |] |];
      try (destruct inserted as [k |]; [destruct indexes_ok; [destruct close_ok |] |])
     |] |] |] |].

(** X17. The seeding script deletes the existing quotes only when the
    store holds some, right after asking, and only on an answer whose
    lower case is "y"; and it inserts only the quotes read from the
    file, either into a store counted empty or after that deletion
    succeeded. *)
Theorem seed_deletes_only_on_yes (c : Seed.conditions) :
  (In Seed.DeleteMany (Seed.seedDatabase c) ->
     (exists n, Seed.existing c = Some n /\ 0 < n)
     /\ JSString.eqb (Seed.toLowerCase c (Seed.answer c)) (str "y") = true
     /\ exists before after,
          Seed.seedDatabase c = before ++ Seed.Question :: Seed.DeleteMany :: after)
  /\ (forall data, In (Seed.InsertMany data) (Seed.seedDatabase c) ->
        Seed.file_json c = Some data
        /\ ((exists n, Seed.existing c = Some n /\ n <= 0)
            \/ (In Seed.DeleteMany (Seed.seedDatabase c) /\ Seed.delete_ok c = true))).
Proof.
  split.
  - seed_cases c; cbn; intros H;
      repeat (destruct H as [H | H]; try discriminate H); try contradiction;
      (split; [exists n; split; [reflexivity | apply Z.ltb_lt; exact Hn] |]);
      (split; [reflexivity |]);
      exists [Seed.MongooseConnect; Seed.ReadQuotes; Seed.CountDocuments];
      eexists; reflexivity.
  - intros d. seed_cases c; cbn; intros H;
      repeat (destruct H as [H | H]; try discriminate H); try contradiction;
      injection H as <-; (split; [reflexivity |]);
      first [ left; exists n; split; [reflexivity | apply Z.ltb_ge; exact Hn]
            | right; split; [tauto | reflexivity] ].
Qed.

(** X18. Every run of the seeding script ends with one exit, the last
    thing it does; the exit code is 0 exactly when the operator
    declined, or when every call succeeded, closing the connection
    included; and the connection is closed only on the run in which
    every call up to [createIndexes] succeeded: after a failure, and
    after a declined prompt, the process exits without closing it. *)
Theorem seed_exit (c : Seed.conditions) :
  exists before code,
    Seed.seedDatabase c = before ++ [Seed.ProcessExit code]
    /\ existsb Seed.is_exit before = false
    /\ (code = 0 <-> Seed.declined c = true
                     \/ (Seed.completes c = true /\ Seed.close_ok c = true))
    /\ (code = 0 \/ code = 1)
    /\ (In Seed.ConnectionClose before <-> Seed.completes c = true).
Proof.
  seed_cases c;
    match goal with
    | |- exists before code, ?l = _ /\ _ =>
        exists (removelast l);
        match eval cbn in (last l Seed.MongooseConnect) with
        | Seed.ProcessExit ?k => exists k
        end
    end;
    cbn; (split; [reflexivity |]); (split; [reflexivity |]);
    intuition (try discriminate; try lia; try congruence).
Qed.

(** ** More on the lookup by id and on the page window *)

(** X19. The handler of GET /api/quote/:id, once a request has reached
    it, answers 400 exactly when the id is missing or not a valid
    identifier, and then with the message "Invalid quote ID format" and
    without any store call: its own check comes first, so its store
    call never ends in the error handler's "Invalid ID format". *)
Theorem by_id_400_iff_invalid (w : world) (req : request) :
  (status (fst (serve get_by_id w req)) = 400
   <-> match req_param req "id" with
       | Some id => ObjectId_isValid (rt w) id = false
       | None => True
       end)
  /\ (status (fst (serve get_by_id w req)) = 400 ->
        serve get_by_id w req = (error_response 400 "Invalid quote ID format", [])).
Proof.
  unfold serve, get_by_id, bind, await_one, await_many,
    sendResponse, the_runtime, new_Date, ret, bind.
  destruct (req_param req "id") as [id |]; [| cbn; tauto].
  destruct (ObjectId_isValid (rt w) id) eqn:Ev; cbn [negb]; [| cbn; tauto].
  match goal with |- context [exec ?r ?s ?q] => destruct (exec r s q) as [e | l] eqn:Ex end.
  - assert (He : e <> CastError)
      by (intros ->; revert Ex; apply exec_no_cast_error; exact Ev).
    cbn [lift fst]. rewrite (proj1 (failed_status _ _ He)).
    split; [split |]; intros H; discriminate H.
  - cbn [lift]. destruct l as [| v l]; [cbn; split; [split |]; intros H; discriminate H |].
    destruct v; cbn; (split; [split |]); intros H; discriminate H.
Qed.

Lemma parseInt_minus_decimal (n : Z) :
  0 <= n -> parseInt (45%N :: decimal n) = JSNumber.of_Z (- n).
Proof.
  intros Hn. pose proof (digits_from_decimal n Hn) as Hdig.
  destruct (decimal_shape n) as (d & rest & E & Hd & Hrest).
  unfold parseInt. rewrite E in *.
  cbn [trim_start]. change (is_white 45) with false. cbv iota.
  change (45 =? 45)%N with true. cbv iota.
  destruct rest as [| d0 r].
  - rewrite Hdig. rewrite Z2N.id by lia. reflexivity.
  - inversion Hrest as [| ? ? Hd0 _]; subst.
    replace (d0 =? 120)%N with false
      by (symmetry; apply N.eqb_neq; unfold is_digit in Hd0; lia).
    replace (d0 =? 88)%N with false
      by (symmetry; apply N.eqb_neq; unfold is_digit in Hd0; lia).
    rewrite andb_false_r. rewrite Hdig. rewrite Z2N.id by lia. reflexivity.
Qed.

(** X20. A negative page or limit is not an error and not replaced by
    the default: GET /api/quotes?page=-a&limit=-b, for a and b written
    in decimal and at least 1, is served as page 1 with 1 record per
    page. *)
Theorem negative_page_and_limit (a b : Z) :
  1 <= a < 2 ^ 53 -> 1 <= b < 2 ^ 53 ->
  page_bounds (minus_request a b)
  = {| w_page := JSNumber.Fin 1; w_limit := JSNumber.Fin 1; w_skip := JSNumber.Fin 0 |}.
Proof.
  intros Ha Hb. unfold page_bounds.
  change (req_query (minus_request a b) "page") with (QString (45%N :: decimal a)).
  change (req_query (minus_request a b) "limit") with (QString (45%N :: decimal b)).
  cbn [ToString]. rewrite !parseInt_minus_decimal by lia.
  rewrite !NumberFacts.of_Z_small by lia.
  rewrite !NumberFacts.or_Fin, !NumberFacts.max_one, NumberFacts.min_fifty. cbn [or_default].
  replace (- a =? 0) with false by (symmetry; apply Z.eqb_neq; lia).
  replace (- b =? 0) with false by (symmetry; apply Z.eqb_neq; lia).
  cbn [at_least at_most]. rewrite !Z.max_l by lia. reflexivity.
Qed.

(** ** The further properties on sample stores and runs *)

Import Cases.

Ltac by_computation := repeat split; vm_compute; first [reflexivity | discriminate].

Lemma sample_store_ok : store_ok (db sample_world).
Proof. by_computation. Defined.

Lemma quotes_page_answer_witness :
  fst (serve get_quotes sample_world (quotes_request 2 1)) = quotes_answer sample_world 2 1.
Proof.
  apply (quotes_page_answer sample_world 2 1 sample_store_ok); by_computation.
Defined.

Lemma pages_cover_store_witness :
  List.concat
    (map (fun k => records_of (fst (serve get_quotes sample_world
                                      (quotes_request (Z.of_nat k + 1) 2))))
         (seq 0 2))
  = map lean_record (docs three_quotes).
Proof.
  apply (pages_cover_store sample_world 2 sample_store_ok). by_computation.
Defined.

Lemma has_next_page_iff_next_page_witness :
  pagination_field (fst (serve get_quotes sample_world (quotes_request 1 2))) "hasNextPage"
  = Some (VBool true)
  <-> records_of (fst (serve get_quotes sample_world (quotes_request 2 2))) <> [].
Proof.
  apply (has_next_page_iff_next_page sample_world 1 2 sample_store_ok); by_computation.
Defined.

Lemma page_past_the_end_witness :
  status (fst (serve get_quotes sample_world (quotes_request 5 2))) = 200
  /\ body_field (fst (serve get_quotes sample_world (quotes_request 5 2))) "data"
     = Some (VArr [])
  /\ pagination_field (fst (serve get_quotes sample_world (quotes_request 5 2)))
       "hasNextPage" = Some (VBool false).
Proof.
  apply (page_past_the_end sample_world 5 2 sample_store_ok); by_computation.
Defined.

Lemma daily_same_day_same_quote_witness :
  body_field (fst (serve get_daily sample_world no_request)) "data"
  = body_field (fst (serve get_daily
                       (world_of Calendar.utc_zone three_quotes half july_first_1300)
                       no_request)) "data".
Proof.
  apply (daily_same_day_same_quote sample_world
           (world_of Calendar.utc_zone three_quotes half july_first_1300)
           no_request no_request 0 eq_refl eq_refl eq_refl sample_store_ok);
    by_computation.
Defined.

Lemma daily_reaches_only_366_witness :
  exists (i : Z) (d : document),
    1 <= i <= 366
    /\ nth_error (docs large_store) (Z.to_nat i) = Some d
    /\ body_field (fst (serve get_daily
                          (world_of Calendar.utc_zone large_store half july_first_noon)
                          no_request)) "data" = Some (lean_record d)
    /\ body_field (fst (serve get_daily
                          (world_of Calendar.utc_zone large_store half july_first_noon)
                          no_request)) "dayOfYear" = Some (VNum (JSNumber.Fin i)).
Proof.
  apply (daily_reaches_only_366
           (world_of Calendar.utc_zone large_store half july_first_noon)
           no_request 0 eq_refl); by_computation.
Defined.

Lemma day_of_year_next_day_witness :
  day_of_year (Calendar.fixed_zone 0) (july_first_noon + Calendar.msPerDay)
  = day_of_year (Calendar.fixed_zone 0) july_first_noon + 1.
Proof.
  exact (day_of_year_next_day 0 july_first_noon ltac:(by_computation)).
Defined.

Lemma store_down_answers_500_witness :
  fst (serve get_random
         (world_of Calendar.utc_zone unreachable_store half july_first_noon) no_request)
  = store_down (host Calendar.utc_zone).
Proof.
  apply (store_down_answers_500
           (world_of Calendar.utc_zone unreachable_store half july_first_noon)
           no_request eq_refl).
Defined.

Lemma search_ignores_query_case_witness :
  fst (serve get_search sample_world (with_source (QString (str "GITA"))))
  = fst (serve get_search sample_world (with_source (QString (str "gita")))).
Proof.
  apply (search_ignores_query_case sample_world (str "GITA") (str "gita")). reflexivity.
Defined.

Lemma sanitized_source_facts_witness :
  sanitizedSource (str "Gita") = str "Gita"
  /\ (sanitizedSource (str "a.b") = sanitizedSource (str "a.b") -> str "a.b" = str "a.b").
Proof.
  split.
  - exact (proj1 (proj2 (sanitized_source_facts (str "Gita") [])) eq_refl).
  - exact (proj2 (proj2 (proj2 (sanitized_source_facts (str "a.b") (str "a.b"))))).
Defined.

Lemma toJSON_transform_keys_witness :
  obj_get "sloka" (toJSON_transform (quote id_a "A" "Bhagavad Gita"))
  = obj_get "sloka" (quote id_a "A" "Bhagavad Gita").
Proof.
  apply (toJSON_transform_keys (quote id_a "A" "Bhagavad Gita")); discriminate.
Defined.

Lemma record_shapes_witness :
  raw_shape (lean_record (quote id_a "A" "Bhagavad Gita")) = true
  /\ public_shape (to_json (VDoc true (quote id_a "A" "Bhagavad Gita"))) = true.
Proof.
  destruct (record_shapes (quote id_a "A" "Bhagavad Gita") (VStr (str id_a))
              eq_refl ltac:(discriminate) eq_refl) as (H1 & H2 & _).
  exact (conj H1 H2).
Defined.

Lemma every_record_can_be_drawn_witness :
  body_field (fst (serve get_random
                     (with_random sample_world (draw_for 2 (count_of (db sample_world))))
                     no_request)) "data"
  = Some (lean_record (quote id_c "C" "Rig Veda")).
Proof.
  apply (every_record_can_be_drawn sample_world no_request 2
           (quote id_c "C" "Rig Veda") sample_store_ok); by_computation.
Defined.

Lemma cors_origin_pieces_witness :
  exists s, Some (str "a, b") = Some s
    /\ Server.join Server.comma [str "a"; str " b"] = s
    /\ List.length [str "a"; str " b"] = S (count_occ N.eq_dec s Server.comma)
    /\ Forall (fun p => mem Server.comma p = false) [str "a"; str " b"].
Proof.
  apply (cors_origin_pieces (Some (str "a, b"))). reflexivity.
Defined.

Lemma seed_deletes_only_on_yes_witness :
  JSString.eqb (Seed.toLowerCase reseed_run (Seed.answer reseed_run)) (str "y") = true.
Proof.
  apply (seed_deletes_only_on_yes reseed_run). vm_compute. tauto.
Defined.

Lemma by_id_400_iff_invalid_witness :
  serve get_by_id sample_world (with_id "123")
  = (error_response 400 "Invalid quote ID format", []).
Proof.
  apply (by_id_400_iff_invalid sample_world (with_id "123")). reflexivity.
Defined.

Lemma negative_page_and_limit_witness :
  page_bounds (minus_request 5 7)
  = {| w_page := JSNumber.Fin 1; w_limit := JSNumber.Fin 1; w_skip := JSNumber.Fin 0 |}.
Proof.
  apply (negative_page_and_limit 5 7); by_computation.
Defined.

(** ** What [parseInt] reads of a query value *)

Lemma digit_value_10 (c : N) :
  digit_value 10 c = if is_decimal_digit c then Some (c - 48)%N else None.
Proof.
  unfold digit_value, is_decimal_digit.
  destruct ((48 <=? c) && (c <=? 57))%N eqn:E10.
  - apply andb_true_iff in E10 as [A B]. apply N.leb_le in A, B.
    replace (c - 48 <? 10)%N with true by (symmetry; apply N.ltb_lt; lia). reflexivity.
  - destruct ((97 <=? c) && (c <=? 122))%N eqn:Ea.
    + apply andb_true_iff in Ea as [A B]. apply N.leb_le in A, B.
      replace (c - 87 <? 10)%N with false by (symmetry; apply N.ltb_ge; lia). reflexivity.
    + destruct ((65 <=? c) && (c <=? 90))%N eqn:EA; [| reflexivity].
      apply andb_true_iff in EA as [A B]. apply N.leb_le in A, B.
      replace (c - 55 <? 10)%N with false by (symmetry; apply N.ltb_ge; lia). reflexivity.
Qed.

Lemma digit_value_16 (c : N) :
  (digit_value 16 c = None) <-> is_hex_digit c = false.
Proof.
  unfold digit_value, is_hex_digit, is_decimal_digit.
  destruct ((48 <=? c) && (c <=? 57))%N eqn:E10; cbn [orb].
  - apply andb_true_iff in E10 as [A B]. apply N.leb_le in A, B.
    replace (c - 48 <? 16)%N with true by (symmetry; apply N.ltb_lt; lia).
    split; discriminate.
  - destruct ((97 <=? c) && (c <=? 122))%N eqn:Ea.
    + apply andb_true_iff in Ea as [A B]. apply N.leb_le in A, B.
      replace ((65 <=? c) && (c <=? 70))%N with false
        by (symmetry; apply andb_false_iff; right; apply N.leb_gt; lia).
      rewrite orb_false_r.
      destruct (N.leb_spec c 102) as [Hle | Hgt].
      * replace (c - 87 <? 16)%N with true by (symmetry; apply N.ltb_lt; lia).
        replace (97 <=? c)%N with true by (symmetry; apply N.leb_le; lia).
        split; discriminate.
      * replace (c - 87 <? 16)%N with false by (symmetry; apply N.ltb_ge; lia).
        rewrite andb_false_r. split; reflexivity.
    + replace ((97 <=? c) && (c <=? 102))%N with false.
      2:{ symmetry. apply andb_false_iff. apply andb_false_iff in Ea as [Ea | Ea];
            [left; exact Ea | right; apply N.leb_gt; apply N.leb_gt in Ea; lia]. }
      cbn [orb].
      destruct ((65 <=? c) && (c <=? 90))%N eqn:EA.
      * apply andb_true_iff in EA as [A B]. apply N.leb_le in A, B.
        replace (65 <=? c)%N with true by (symmetry; apply N.leb_le; lia). cbn [andb].
        destruct (N.leb_spec c 70) as [Hle | Hgt].
        -- replace (c - 55 <? 16)%N with true by (symmetry; apply N.ltb_lt; lia).
           split; discriminate.
        -- replace (c - 55 <? 16)%N with false by (symmetry; apply N.ltb_ge; lia).
           split; reflexivity.
      * replace ((65 <=? c) && (c <=? 70))%N with false; [split; reflexivity |].
        symmetry. apply andb_false_iff. apply andb_false_iff in EA as [EA | EA];
          [left; exact EA | right; apply N.leb_gt; apply N.leb_gt in EA; lia].
Qed.

Lemma digits_from_some (R a : N) (s : jsstring) :
  exists m, digits_from R (Some a) s = Some m.
Proof.
  revert a. induction s as [| c r IH]; intros a; cbn [digits_from]; [eauto |].
  destruct (digit_value R c); [apply IH | eauto].
Qed.

Lemma digits_from_none (R : N) (s : jsstring) :
  digits_from R None s = None
  <-> match s with [] => True | c :: _ => digit_value R c = None end.
Proof.
  destruct s as [| c r]; cbn [digits_from]; [tauto |].
  destruct (digit_value R c) as [d |]; [| tauto].
  destruct (digits_from_some R d r) as [m ->]. split; discriminate.
Qed.

Lemma of_Z_not_NaN (z : Z) : JSNumber.of_Z z <> JSNumber.NaN.
Proof. unfold JSNumber.of_Z. destruct (_ <=? _); discriminate. Qed.

Lemma read_NaN_iff (negative : bool) (R : N) (s : jsstring) :
  match digits_from R None s with
  | Some n => JSNumber.of_Z (if negative then - Z.of_N n else Z.of_N n)
  | None => JSNumber.NaN
  end = JSNumber.NaN
  <-> match s with [] => True | c :: _ => digit_value R c = None end.
Proof.
  rewrite <- digits_from_none.
  destruct (digits_from R None s); split; intros H;
    try reflexivity; try discriminate.
  exfalso. exact (of_Z_not_NaN _ H).
Qed.

Lemma unsigned_NaN_iff (negative : bool) (s : jsstring) :
  (let '(R, s') :=
     match s with
     | c :: d :: r =>
         if ((c =? 48) && ((d =? 120) || (d =? 88)))%N then (16%N, r) else (10%N, s)
     | _ => (10%N, s)
     end in
   match digits_from R None s' with
   | Some n => JSNumber.of_Z (if negative then - Z.of_N n else Z.of_N n)
   | None => JSNumber.NaN
   end) = JSNumber.NaN
  <-> match s with
      | c :: d :: r =>
          if ((c =? 48) && ((d =? 120) || (d =? 88)))%N
          then match r with h :: _ => is_hex_digit h | [] => false end
          else is_decimal_digit c
      | [c] => is_decimal_digit c
      | [] => false
      end = false.
Proof.
  destruct s as [| c [| d r]].
  - rewrite read_NaN_iff. tauto.
  - rewrite read_NaN_iff, digit_value_10. destruct (is_decimal_digit c); split; congruence.
  - destruct ((c =? 48) && ((d =? 120) || (d =? 88)))%N.
    + rewrite read_NaN_iff. destruct r as [| h r']; [tauto | apply digit_value_16].
    + rewrite read_NaN_iff, digit_value_10. destruct (is_decimal_digit c); split; congruence.
Qed.

(** [parseInt] gives NaN exactly on the values that do not start with
    an integer. *)
Lemma parseInt_NaN_iff (s : jsstring) :
  parseInt s = JSNumber.NaN <-> leading_integer s = false.
Proof.
  unfold parseInt, leading_integer.
  destruct (trim_start s) as [| c r].
  - apply (unsigned_NaN_iff false []).
  - destruct (N.eqb_spec c 45) as [-> | H45].
    + cbn [orb]. apply (unsigned_NaN_iff true r).
    + destruct (N.eqb_spec c 43) as [-> | H43]; cbn [orb].
      * apply (unsigned_NaN_iff false r).
      * apply (unsigned_NaN_iff false (c :: r)).
Qed.

Lemma digits_fuel_app (fuel : nat) (n : N) (acc tail : jsstring) :
  digits_fuel fuel n (acc ++ tail) = digits_fuel fuel n acc ++ tail.
Proof.
  revert n acc. induction fuel as [| f IH]; intros n acc; [reflexivity |].
  cbn [digits_fuel]. destruct (n / 10 =? 0)%N; [reflexivity |].
  apply (IH (n / 10)%N ((48 + n mod 10)%N :: acc)).
Qed.

Lemma digits_from_stops (a : N) (tail : jsstring) :
  stops tail = true -> digits_from 10 (Some a) tail = Some a.
Proof.
  destruct tail as [| c r]; [reflexivity |]. cbn [stops digits_from].
  intros H. apply andb_true_iff in H as [H _]. apply negb_true_iff in H.
  rewrite digit_value_10, H. reflexivity.
Qed.

Lemma digits_from_decimal_prefix (n : Z) (tail : jsstring) :
  0 <= n -> stops tail = true ->
  digits_from 10 None (decimal n ++ tail) = Some (Z.to_N n).
Proof.
  intros Hn Hstop. unfold decimal.
  rewrite <- digits_fuel_app. cbn [app].
  destruct (digits_from_fuel (S (N.to_nat (N.log2 (Z.to_N n)))) (Z.to_N n) tail)
    as [-> | H]; [| apply digits_from_stops; exact Hstop | discriminate].
  rewrite Nat2N.inj_succ, N2Nat.id.
  destruct (N.eq_dec (Z.to_N n) 0) as [-> | Hpos]; [reflexivity |].
  apply N.log2_spec. lia.
Qed.

(** [parseInt] reads the numeral a value starts with, and stops at
    what follows. *)
Lemma parseInt_decimal_prefix (n : Z) (tail : jsstring) :
  0 <= n -> stops tail = true -> parseInt (decimal n ++ tail) = JSNumber.of_Z n.
Proof.
  intros Hn Hstop. pose proof (digits_from_decimal_prefix n tail Hn Hstop) as Hdig.
  destruct (decimal_shape n) as (d & rest & E & Hd & Hrest).
  unfold parseInt. rewrite E in *. cbn [app] in *.
  cbn [trim_start]. rewrite (digit_not_white d Hd).
  replace (d =? 45)%N with false by (symmetry; apply N.eqb_neq; unfold is_digit in Hd; lia).
  replace (d =? 43)%N with false by (symmetry; apply N.eqb_neq; unfold is_digit in Hd; lia).
  assert (Hsecond : match rest ++ tail with
                    | [] => True
                    | d0 :: _ => ((d0 =? 120) || (d0 =? 88))%N = false
                    end).
  { destruct rest as [| d0 r]; cbn [app].
    - destruct tail as [| c r]; [exact I |]. cbn [stops] in Hstop.
      apply andb_true_iff in Hstop as [_ H]. apply negb_true_iff in H. exact H.
    - inversion Hrest as [| ? ? Hd0 _]; subst. unfold is_digit in Hd0.
      apply orb_false_iff. split; apply N.eqb_neq; lia. }
  destruct (rest ++ tail) as [| d0 r].
  - rewrite Hdig. rewrite Z2N.id by lia. reflexivity.
  - rewrite Hsecond, andb_false_r. rewrite Hdig. rewrite Z2N.id by lia. reflexivity.
Qed.

(** C4. GET /api/quotes, for all query values of page and limit:
    page is max(1, parseInt(page) or 1), limit is
    min(50, max(1, parseInt(limit) or 10)) and skip is
    (page - 1) * limit, an exact integer product as long as it stays
    below 2^53.  parseInt reads the integer a value starts with: a
    decimal numeral followed by other text is read as that numeral; it
    gives NaN exactly on a value that does not start with an integer,
    an absent one included, and such a value gives page 1 and limit 10.
    The computation always completes: the window reaches the store. *)
Theorem page_window_contract (req : request) :
  let page := ToString (req_query req "page") in
  let limit := ToString (req_query req "limit") in
  let b := page_bounds req in
  w_page b = at_least 1 (or_default (parseInt page) 1)
  /\ w_limit b = at_most 50 (at_least 1 (or_default (parseInt limit) 10))
  /\ w_skip b = JSNumber.mul (JSNumber.sub (w_page b) (JSNumber.Fin 1)) (w_limit b)
  /\ (exists l, w_limit b = JSNumber.Fin l /\ 1 <= l <= 50)
  /\ ((exists p, w_page b = JSNumber.Fin p /\ 1 <= p) \/ w_page b = JSNumber.Inf false)
  /\ (forall p l, w_page b = JSNumber.Fin p -> w_limit b = JSNumber.Fin l ->
                  (p - 1) * l < 2 ^ 53 -> w_skip b = JSNumber.Fin ((p - 1) * l))
  /\ (parseInt page = JSNumber.NaN <-> leading_integer page = false)
  /\ (parseInt limit = JSNumber.NaN <-> leading_integer limit = false)
  /\ (leading_integer page = false -> w_page b = JSNumber.Fin 1)
  /\ (leading_integer limit = false -> w_limit b = JSNumber.Fin 10)
  /\ (req_query req "page" = QUndefined -> w_page b = JSNumber.Fin 1)
  /\ (req_query req "limit" = QUndefined -> w_limit b = JSNumber.Fin 10)
  /\ (forall n tail, 0 <= n < 2 ^ 53 -> stops tail = true ->
        page = decimal n ++ tail -> w_page b = JSNumber.Fin (Z.max 1 n))
  /\ (forall n tail, 0 <= n < 2 ^ 53 -> stops tail = true ->
        limit = decimal n ++ tail ->
        w_limit b = JSNumber.Fin (if n =? 0 then 10 else Z.min 50 n))
  /\ (forall w, exists rest,
         snd (serve get_quotes w req) = Exec (page_query b) :: CountDocuments :: rest).
Proof.
  intros page limit b.
  destruct (page_window_facts req)
    as (Hp & Hl & Hs & Hlr & Hpr & HPnan & HLnan & HPabs & HLabs & Hskip & Hlog).
  fold page in Hp, HPnan. fold limit in Hl, HLnan. fold b in Hp, Hl, Hs, Hlr, Hpr.
  refine (conj Hp (conj Hl (conj Hs (conj Hlr (conj Hpr (conj Hskip
           (conj (parseInt_NaN_iff page) (conj (parseInt_NaN_iff limit)
              (conj _ (conj _ (conj HPabs (conj HLabs (conj _ (conj _ Hlog)))))))))))))).
  - intros H. apply HPnan. apply parseInt_NaN_iff. exact H.
  - intros H. apply HLnan. apply parseInt_NaN_iff. exact H.
  - intros n tail Hn Hstop E. rewrite Hp, E, parseInt_decimal_prefix by (lia || assumption).
    rewrite NumberFacts.of_Z_small by lia. cbn [or_default at_least].
    destruct (Z.eqb_spec n 0); f_equal; lia.
  - intros n tail Hn Hstop E. rewrite Hl, E, parseInt_decimal_prefix by (lia || assumption).
    rewrite NumberFacts.of_Z_small by lia. cbn [or_default at_least at_most].
    destruct (Z.eqb_spec n 0); f_equal; lia.
Qed.

(** C4, as stated: a value that is not the text of an integer does not
    always fall back to the default. *)
Lemma malformed_value_is_read :
  ~ (forall (req : request) (p l : jsstring),
       req_query req "page" = QString p -> req_query req "limit" = QString l ->
       integer_text p = false -> integer_text l = false ->
       w_page (page_bounds req) = JSNumber.Fin 1
       /\ w_limit (page_bounds req) = JSNumber.Fin 10).
Proof.
  intros H.
  destruct (H (with_page_limit "12abc" "42px") (str "12abc") (str "42px")
              eq_refl eq_refl eq_refl eq_refl) as [Hp _].
  vm_compute in Hp. discriminate Hp.
Qed.

Lemma page_window_contract_witness :
  w_page (page_bounds (with_page_limit "12abc" "42px")) = JSNumber.Fin (Z.max 1 12)
  /\ w_limit (page_bounds (with_page_limit "12abc" "42px")) = JSNumber.Fin (Z.min 50 42)
  /\ w_skip (page_bounds (with_page_limit "12abc" "42px")) = JSNumber.Fin ((12 - 1) * 42)
  /\ w_page (page_bounds (with_page_limit "abc" "-")) = JSNumber.Fin 1
  /\ w_limit (page_bounds (with_page_limit "abc" "-")) = JSNumber.Fin 10
  /\ w_limit (page_bounds no_request) = JSNumber.Fin 10.
Proof.
  destruct (page_window_contract (with_page_limit "12abc" "42px"))
    as (_ & _ & _ & _ & _ & Hskip & _ & _ & _ & _ & _ & _ & Hpage & Hlimit & _).
  destruct (page_window_contract (with_page_limit "abc" "-"))
    as (_ & _ & _ & _ & _ & _ & _ & _ & Hp1 & Hl10 & _).
  destruct (page_window_contract no_request)
    as (_ & _ & _ & _ & _ & _ & _ & _ & _ & _ & _ & Habsent & _).
  split; [apply (Hpage 12 (str "abc")); by_computation |].
  split; [apply (Hlimit 42 (str "px")); by_computation |].
  split; [apply (Hskip 12 42); by_computation |].
  split; [apply Hp1; reflexivity |].
  split; [apply Hl10; reflexivity | apply Habsent; reflexivity].
Defined.
